(** * Voice AI frontend: the capture-and-pipeline orchestrator of [src/App.js]

    A shallow embedding of the React component [App]: its eight [useState]
    cells, its two refs, the media-capture handlers ([startRecording],
    [ondataavailable], [stopRecording]) and the three remote stages
    ([sendAudioForProcessing], [handleRefineQuestion], [getAiAnswer]).

    Conventions of the embedding.
    - A handler of a function component closes over the state values of the
      render that created it, and writes through the setters into the
      current state.  Every handler therefore takes the render it belongs
      to ([render : State], read-only) next to the state it updates.
    - An [async] handler is split at its suspension: [f_begin] is the part
      that runs up to the first [await fetch], [f_resume] the part that runs
      once the response (and its body) has settled.  [f] composes the two for
      a run in which nothing else happens in between.
    - What a handler asks of the platform (a network request, starting or
      stopping the recorder) is returned as a list of [Effect]s. *)

From Stdlib Require Import String Ascii List Bool Arith Lia DecimalString.
Import ListNotations.
Open Scope string_scope.
Open Scope list_scope.

(** ** JavaScript values used by the component *)

Module Js.

(** A value that is either a string or [undefined]. *)
Definition value := option string.

Definition undefined : value := None.

(** Truthiness of a string: every string but the empty one. *)
Definition truthy_str (s : string) : bool :=
  match s with EmptyString => false | String _ _ => true end.

(** Truthiness of a string-or-undefined value. *)
Definition truthy (v : value) : bool :=
  match v with Some s => truthy_str s | None => false end.

(** [a || b] with [b] a string: the result is a string whenever [a] is a
    string or [undefined]. *)
Definition or (a : value) (b : string) : string :=
  match a with
  | Some s => if truthy_str s then s else b
  | None => b
  end.

(** [String.prototype.startsWith]. *)
Fixpoint startsWith (needle hay : string) : bool :=
  match needle, hay with
  | EmptyString, _ => true
  | String _ _, EmptyString => false
  | String a n', String b h' => Ascii.eqb a b && startsWith n' h'
  end.

(** [hay.includes(needle)]. *)
Fixpoint includes (needle hay : string) : bool :=
  startsWith needle hay ||
  match hay with
  | EmptyString => false
  | String _ h' => includes needle h'
  end.

(** The one-character string holding a double quote (code 34). *)
Definition dquote : string := String (ascii_of_nat 34) EmptyString.

(** The one-character string holding a line feed (code 10). *)
Definition newline : string := String (ascii_of_nat 10) EmptyString.

(** The message of the [TypeError] thrown on reading a property of [null],
    in the wording of V8.  Other engines word it differently; the handlers
    only pass the message on. *)
Definition TypeError_null (property : string) : string :=
  "Cannot read properties of null (reading '" ++ property ++ "')".

(** Conversion of a number inside a template literal. *)
Definition of_nat (n : nat) : string :=
  NilZero.string_of_uint (Nat.to_uint n).

End Js.

(** ** Blobs *)

(** A [Blob] is an opaque run of bytes with a media type; [size] is its
    length.  An audio chunk ([event.data]) is a [Blob]. *)
Record Blob := mkBlob { blob_bytes : list Byte.byte; blob_type : string }.

Definition size (b : Blob) : nat := length (blob_bytes b).

(** [new Blob(parts, { type })]: the parts' bytes, in order. *)
Definition new_Blob (parts : list Blob) (type : string) : Blob :=
  mkBlob (concat (map blob_bytes parts)) type.

(** ** Requests and responses *)

(** The JSON documents the component builds ([JSON.stringify] argument). *)
#[warnings="-register-all"] Inductive Json :=
| JStr (s : string)
| JArr (items : list Json)
| JObj (fields : list (string * Json)).

Inductive Body :=
| FormData (entries : list (string * Blob * string))
| JsonBody (doc : Json).

Record Request := mkRequest {
  req_url : string;
  req_method : string;
  req_headers : list (string * string);
  req_body : Body
}.

(** Outcome of [response.json()]: the body parses to a value whose
    properties can be read ([JsonParsed]), it parses to [null], on which
    reading a property throws ([JsonNull]), or it does not parse and the
    promise rejects ([JsonRejected]). *)
Inductive JsonOutcome (B : Type) :=
| JsonParsed (b : B)
| JsonNull
| JsonRejected (message : string).
Arguments JsonParsed {B} b.
Arguments JsonNull {B}.
Arguments JsonRejected {B} message.

Record Response (B : Type) := mkResponse {
  status : nat;
  statusText : string;
  json : JsonOutcome B
}.
Arguments mkResponse {B}.
Arguments status {B}.
Arguments statusText {B}.
Arguments json {B}.

(** [response.ok]: the status is in the range 200-299. *)
Definition ok {B} (r : Response B) : bool :=
  ((200 <=? status r) && (status r <=? 299))%nat.

(** Outcome of [await fetch(...)]: the promise rejects with an error (a
    network-level failure) or resolves with a response. *)
Inductive FetchOutcome (B : Type) :=
| FetchRejected (message : string)
| FetchResolved (r : Response B).
Arguments FetchRejected {B} message.
Arguments FetchResolved {B} r.

(** Bodies that are not [null], at the shape the component reads them.  A
    property that the component tests is optional: [None] stands for a
    property that is missing, [null] or falsy in another way.  An element of
    an array whose properties the component reads without a test is either a
    value or [null] ([None]). *)
Record SttBody := mkSttBody {
  stt_transcription : Js.value;
  stt_message : Js.value
}.

Record OpenAiBody := mkOpenAiBody {
  openai_answer : Js.value;
  openai_message : Js.value
}.

Record Part := mkPart { part_text : Js.value }.
Record Content := mkContent { content_parts : option (list (option Part)) }.
Record Candidate := mkCandidate { candidate_content : option Content }.
Record GeminiBody := mkGeminiBody {
  gemini_candidates : option (list (option Candidate));
  gemini_message : Js.value
}.

(** ** Component state *)

Record State := mkState {
  isRecording : bool;
  audioChunks : list Blob;
  transcribedText : string;
  refinedQuestion : Js.value;
  aiAnswer : string;
  statusMessage : string;
  isLoading : bool;
  isRefining : bool
}.

Definition initialState : State :=
  mkState false [] "" (Some "") ""
          ("Click " ++ Js.dquote ++ "Start Recording" ++ Js.dquote
           ++ " to begin capturing tab audio.")
          false false.

(** *** Setters returned by [useState] *)

Definition setIsRecording (v : bool) (s : State) : State :=
  mkState v (audioChunks s) (transcribedText s) (refinedQuestion s)
          (aiAnswer s) (statusMessage s) (isLoading s) (isRefining s).

Definition setAudioChunks (v : list Blob) (s : State) : State :=
  mkState (isRecording s) v (transcribedText s) (refinedQuestion s)
          (aiAnswer s) (statusMessage s) (isLoading s) (isRefining s).

(** [setAudioChunks(prev => f(prev))]. *)
Definition updateAudioChunks (f : list Blob -> list Blob) (s : State) : State :=
  setAudioChunks (f (audioChunks s)) s.

Definition setTranscribedText (v : string) (s : State) : State :=
  mkState (isRecording s) (audioChunks s) v (refinedQuestion s)
          (aiAnswer s) (statusMessage s) (isLoading s) (isRefining s).

Definition setRefinedQuestion (v : Js.value) (s : State) : State :=
  mkState (isRecording s) (audioChunks s) (transcribedText s) v
          (aiAnswer s) (statusMessage s) (isLoading s) (isRefining s).

Definition setAiAnswer (v : string) (s : State) : State :=
  mkState (isRecording s) (audioChunks s) (transcribedText s)
          (refinedQuestion s) v (statusMessage s) (isLoading s) (isRefining s).

Definition setStatusMessage (v : string) (s : State) : State :=
  mkState (isRecording s) (audioChunks s) (transcribedText s)
          (refinedQuestion s) (aiAnswer s) v (isLoading s) (isRefining s).

Definition setIsLoading (v : bool) (s : State) : State :=
  mkState (isRecording s) (audioChunks s) (transcribedText s)
          (refinedQuestion s) (aiAnswer s) (statusMessage s) v (isRefining s).

Definition setIsRefining (v : bool) (s : State) : State :=
  mkState (isRecording s) (audioChunks s) (transcribedText s)
          (refinedQuestion s) (aiAnswer s) (statusMessage s) (isLoading s) v.

(** Statements of a handler run in sequence: [s |> f |> g] is [f] then [g]. *)
Notation "s |> f" := (f s) (at level 45, left associativity, only parsing).

(** *** Refs *)

Record MediaStream := mkMediaStream { stream_tracks : nat }.

Inductive RecorderState := inactive | recording | paused.

Definition RecorderState_eqb (a b : RecorderState) : bool :=
  match a, b with
  | inactive, inactive | recording, recording | paused, paused => true
  | _, _ => false
  end.

(** A [MediaRecorder] made by [startRecording]: its platform state, and the
    render whose [sendAudioForProcessing] its [onstop] handler calls. *)
Record MediaRecorder := mkMediaRecorder {
  recorder_state : RecorderState;
  recorder_render : State
}.

(** The component instance: the current state and the two refs. *)
Record App := mkApp {
  state : State;
  mediaRecorderRef : option MediaRecorder;
  audioStreamRef : option MediaStream
}.

Definition initialApp : App := mkApp initialState None None.

Definition withState (f : State -> State) (a : App) : App :=
  mkApp (f (state a)) (mediaRecorderRef a) (audioStreamRef a).

Definition setMediaRecorderRef (v : option MediaRecorder) (a : App) : App :=
  mkApp (state a) v (audioStreamRef a).

Definition setAudioStreamRef (v : option MediaStream) (a : App) : App :=
  mkApp (state a) (mediaRecorderRef a) v.

(** *** Effects *)

Inductive Effect :=
| Fetch (r : Request)
| GetDisplayMedia
| RecorderStart (timeslice : nat)
| RecorderStop.

Definition is_Fetch (e : Effect) : bool :=
  match e with Fetch _ => true | _ => false end.

(** The network requests among the effects of a handler. *)
Fixpoint requests (es : list Effect) : list Request :=
  match es with
  | [] => []
  | Fetch r :: es' => r :: requests es'
  | _ :: es' => requests es'
  end.

Definition BACKEND_URL : string := "https://voice-ai-backend-euw9.onrender.com".

(** ** Media capture *)

(** Outcome of [await navigator.mediaDevices.getDisplayMedia(...)]: the
    resolved value (tested by the component for being falsy) or the error. *)
Inductive AcquireOutcome :=
| Acquired (stream : option MediaStream)
| AcquireFailed (name message : string).

(** What the platform does with [new MediaRecorder(stream)] followed by
    [start(1000)]. *)
Inductive RecorderOutcome :=
| RecorderStarted
| ConstructorThrows
| StartThrows.

(** The mount effect [getDisplayMediaAudio] (lines 27-49), after its
    [await]. *)
Definition getDisplayMediaAudio (o : AcquireOutcome) (a : App) : App :=
  match o with
  | Acquired stream =>
      a |> setAudioStreamRef stream
        |> withState (setStatusMessage
             "Tab/Window audio capture ready. Select a tab/window to share its its audio.")
  | AcquireFailed name message =>
      if (name =? "NotAllowedError") && Js.includes "permissions policy" message then
        a |> withState (setStatusMessage
               "Tab/Window audio capture is blocked by browser permissions policy. Try running this app in a standalone browser tab.")
      else if name =? "NotAllowedError" then
        a |> withState (setStatusMessage
               "Tab/Window audio capture denied. Please allow access in browser settings (click lock icon in address bar).")
      else if name =? "NotFoundError" then
        a |> withState (setStatusMessage
               "No suitable audio source found. Ensure a tab/window is available for capture.")
      else
        a |> withState (setStatusMessage
               "Failed to get audio stream. See browser console (F12) for details.")
  end.

(** [startRecording], from the first [setAudioChunks([])] to its end
    (lines 82-114): the
    part that runs once an audio stream is at hand.  The recorder's handlers
    are those of [render]. *)
Definition startRecording_record (render : State) (mr : RecorderOutcome)
                                 (a : App) : App * list Effect :=
  let a := a |> withState (setAudioChunks [])
             |> withState (setTranscribedText "")
             |> withState (setRefinedQuestion (Some ""))
             |> withState (setAiAnswer "")
             |> withState (setIsRecording true)
             |> withState (setStatusMessage "Recording tab/window audio...")
             |> withState (setIsLoading false) in
  let catch (a : App) :=
    a |> withState (setStatusMessage
           "Error starting recording. Ensure a tab is selected for audio sharing.")
      |> withState (setIsRecording false) in
  match mr with
  | RecorderStarted =>
      (a |> setMediaRecorderRef (Some (mkMediaRecorder recording render)),
       [RecorderStart 1000])
  | ConstructorThrows => (catch a, [])
  | StartThrows =>
      (catch (a |> setMediaRecorderRef (Some (mkMediaRecorder inactive render))),
       [])
  end.

(** [startRecording] up to its [await] (lines 65-69): with a stream at hand
    it runs to the end; without one it asks the platform for one and suspends. *)
Definition startRecording_begin (render : State) (mr : RecorderOutcome)
                                (a : App) : App * list Effect :=
  match audioStreamRef a with
  | None =>
      (a |> withState (setStatusMessage
              "Audio stream not available. Attempting to re-acquire..."),
       [GetDisplayMedia])
  | Some _ => startRecording_record render mr a
  end.

(** [startRecording] after the re-acquisition has settled (lines 70-79, then
    82-114). *)
Definition startRecording_resume (render : State) (o : AcquireOutcome)
                                 (mr : RecorderOutcome)
                                 (a : App) : App * list Effect :=
  match o with
  | Acquired stream =>
      let a := a |> setAudioStreamRef stream in
      match audioStreamRef a with
      | None =>
          (a |> withState (setStatusMessage
                  "Cannot start recording: Still no audio stream available after re-attempt. Check browser permissions."),
           [])
      | Some _ => startRecording_record render mr a
      end
  | AcquireFailed _ _ =>
      (a |> withState (setStatusMessage
              "Cannot start recording: Failed to acquire audio stream. Check browser console."),
       [])
  end.

(** A whole run of [startRecording], nothing happening during its [await]. *)
Definition startRecording (render : State) (o : AcquireOutcome)
                          (mr : RecorderOutcome)
                          (a : App) : App * list Effect :=
  match audioStreamRef a with
  | None =>
      let '(a1, es1) := startRecording_begin render mr a in
      let '(a2, es2) := startRecording_resume render o mr a1 in
      (a2, es1 ++ es2)
  | Some _ => startRecording_begin render mr a
  end.

(** The recorder's [ondataavailable] handler (lines 95-100). *)
Definition ondataavailable (data : Blob) (s : State) : State :=
  if (0 <? size data)%nat then
    s |> updateAudioChunks (fun prev => prev ++ [data])
  else s.

(** A run of chunk events, in the order of delivery. *)
Definition deliver (chunks : list Blob) (s : State) : State :=
  fold_left (fun s data => ondataavailable data s) chunks s.

(** [stopRecording] (lines 118-125). *)
Definition stopRecording (a : App) : App * list Effect :=
  match mediaRecorderRef a with
  | Some rec =>
      if RecorderState_eqb (recorder_state rec) recording then
        (a |> setMediaRecorderRef
                (Some (mkMediaRecorder inactive (recorder_render rec)))
           |> withState (setIsRecording false)
           |> withState (setStatusMessage "Processing tab audio...")
           |> withState (setIsLoading true),
         [RecorderStop])
      else (a, [])
  | None => (a, [])
  end.

(** ** The pipeline *)

(** The message of the error that the branch of a non-ok response throws.
    It is
    [`${api} API error: ${status} - ${errorData.message || statusText}`],
    where [errorData] is the parsed body, or [{ message: statusText }] when
    the body does not parse; when the body is [null], reading
    [errorData.message] throws first, and the message is that of the
    [TypeError]. *)
Definition api_error {B} (api : string) (message : B -> Js.value)
                     (r : Response B) : string :=
  let thrown (errorData_message : Js.value) : string :=
    (api ++ " API error: " ++ Js.of_nat (status r) ++ " - "
         ++ Js.or errorData_message (statusText r))%string in
  match json r with
  | JsonParsed b => thrown (message b)
  | JsonNull => Js.TypeError_null "message"
  | JsonRejected _ => thrown (Some (statusText r))
  end.

(** *** Stage 1: transcription *)

Definition stt_request (audioBlob : Blob) : Request :=
  mkRequest (BACKEND_URL ++ "/api/stt") "POST" []
            (FormData [("audio", audioBlob, "recording.webm")]).

(** [sendAudioForProcessing] up to its [await fetch] (lines 131-148); the
    chunks are those of the render the handler belongs to. *)
Definition sendAudioForProcessing_begin (render : State)
                                        (s : State) : State * list Effect :=
  let audioBlob := new_Blob (audioChunks render) "audio/webm" in
  if (size audioBlob =? 0)%nat then
    (s |> setStatusMessage
            "No audio recorded from the tab. Please ensure audio is playing and you record for a sufficient duration."
       |> setIsLoading false,
     [])
  else
    (s |> setStatusMessage "Sending tab audio for transcription...",
     [Fetch (stt_request audioBlob)]).

(** The [try] block after the request (lines 150-156): the transcription
    to store, or the message of the error thrown -- by the code for a
    response that is not ok, by [json()] for a body that does not parse, or
    as a [TypeError] on reading [sttResult.transcription] for a body that is
    [null]. *)
Definition stt_try (o : FetchOutcome SttBody) : string + string :=
  match o with
  | FetchRejected message => inl message
  | FetchResolved r =>
      if negb (ok r) then inl (api_error "STT" stt_message r)
      else match json r with
           | JsonRejected message => inl message
           | JsonNull => inl (Js.TypeError_null "transcription")
           | JsonParsed sttResult =>
               inr (Js.or (stt_transcription sttResult) "No transcription received.")
           end
  end.

(** [sendAudioForProcessing] once the request has settled (lines 150-170):
    the rest of the [try], the [catch] and the [finally]. *)
Definition sendAudioForProcessing_resume (o : FetchOutcome SttBody)
                                         (s : State) : State :=
  let s :=
    match stt_try o with
    | inr transcription =>
        s |> setTranscribedText transcription
          |> setStatusMessage
               "Transcription received. You can now refine it or get an AI answer."
    | inl message =>
        if Js.includes "Failed to fetch" message then
          s |> setStatusMessage
                 ("Error: Could not connect to backend. Ensure backend is running at "
                  ++ BACKEND_URL ++ " and check CORS.")
        else
          s |> setStatusMessage
                 ("Error during transcription: " ++ message ++ ". Please try again.")
    end in
  s |> setIsLoading false |> setAudioChunks [].

(** A whole run of stage 1, nothing happening during its [await]s. *)
Definition sendAudioForProcessing (render : State) (o : FetchOutcome SttBody)
                                  (s : State) : State * list Effect :=
  let '(s1, es) := sendAudioForProcessing_begin render s in
  match es with
  | [] => (s1, es)
  | _ :: _ => (sendAudioForProcessing_resume o s1, es)
  end.

(** The recorder's [onstop] handler (lines 103-106): [sendAudioForProcessing]
    of the render that made the recorder. *)
Definition onstop (rec : MediaRecorder) (s : State) : State * list Effect :=
  sendAudioForProcessing_begin (recorder_render rec) s.

(** *** Stage 3: answer *)

Definition openai_request (questionToSend : string) : Request :=
  mkRequest (BACKEND_URL ++ "/api/openai") "POST"
            [("Content-Type", "application/json")]
            (JsonBody (JObj [("question", JStr questionToSend)])).

(** [const questionToSend = refinedQuestion || transcribedText]. *)
Definition questionToSend (render : State) : string :=
  Js.or (refinedQuestion render) (transcribedText render).

(** [getAiAnswer] up to its [await fetch] (lines 175-193). *)
Definition getAiAnswer_begin (render : State)
                             (s : State) : State * list Effect :=
  if negb (Js.truthy_str (questionToSend render)) then
    (s |> setStatusMessage "Please transcribe audio or refine a question first.",
     [])
  else
    (s |> setIsLoading true
       |> setStatusMessage "Sending question to AI..."
       |> setAiAnswer "",
     [Fetch (openai_request (questionToSend render))]).

(** The [try] block after the request (lines 195-201): the answer to store,
    or the message of the error thrown -- by the code for a response that is
    not ok, by [json()] for a body that does not parse, or as a [TypeError]
    on reading [openaiResult.answer] for a body that is [null]. *)
Definition openai_try (o : FetchOutcome OpenAiBody) : string + string :=
  match o with
  | FetchRejected message => inl message
  | FetchResolved r =>
      if negb (ok r) then inl (api_error "OpenAI" openai_message r)
      else match json r with
           | JsonRejected message => inl message
           | JsonNull => inl (Js.TypeError_null "answer")
           | JsonParsed openaiResult =>
               inr (Js.or (openai_answer openaiResult) "No answer received from AI.")
           end
  end.

(** [getAiAnswer] once the request has settled (lines 195-210). *)
Definition getAiAnswer_resume (o : FetchOutcome OpenAiBody)
                              (s : State) : State :=
  let s :=
    match openai_try o with
    | inr answer =>
        s |> setAiAnswer answer |> setStatusMessage "AI Answer received!"
    | inl message =>
        s |> setStatusMessage
               ("Error getting AI answer: " ++ message ++ ". Please try again.")
    end in
  s |> setIsLoading false.

(** A whole run of stage 3, nothing happening during its [await]s. *)
Definition getAiAnswer (render : State) (o : FetchOutcome OpenAiBody)
                       (s : State) : State * list Effect :=
  let '(s1, es) := getAiAnswer_begin render s in
  match es with
  | [] => (s1, es)
  | _ :: _ => (getAiAnswer_resume o s1, es)
  end.

(** *** Stage 2: refinement *)

Definition apiKey : string := "".

Definition apiUrl : string :=
  "https://generativelanguage.googleapis.com/v1beta/models/gemini-2.0-flash:generateContent?key="
  ++ apiKey.

Definition refine_prompt (transcribedText : string) : string :=
  "Refine the following question to be more clear, concise, and suitable for an AI assistant. Focus on making it a direct query. Do not add any conversational filler. Just the refined question:"
  ++ Js.newline ++ Js.newline ++ Js.dquote ++ transcribedText ++ Js.dquote.

Definition gemini_request (transcribedText : string) : Request :=
  let chatHistory :=
    [JObj [("role", JStr "user");
           ("parts", JArr [JObj [("text", JStr (refine_prompt transcribedText))]])]] in
  mkRequest apiUrl "POST" [("Content-Type", "application/json")]
            (JsonBody (JObj [("contents", JArr chatHistory)])).

(** [handleRefineQuestion] up to its [await fetch] (lines 216-241). *)
Definition handleRefineQuestion_begin (render : State)
                                      (s : State) : State * list Effect :=
  if negb (Js.truthy_str (transcribedText render)) then
    (s |> setStatusMessage "Please transcribe audio first to refine a question.",
     [])
  else
    (s |> setIsRefining true
       |> setStatusMessage "Refining question with Gemini..."
       |> setRefinedQuestion (Some ""),
     [Fetch (gemini_request (transcribedText render))]).

(** What lines 249-252 do with a parsed result that is not [null]: the
    guard passes and [candidates[0].content.parts[0].text] is read, the
    guard fails, or a [TypeError] is thrown on the way. *)
Inductive Guard :=
| GuardPasses (text : Js.value)
| GuardFails
| GuardThrows (message : string).

(** The guard on the parsed result (lines 249-251) and the read of line
    252.  The guard holds when [candidates] is there and not empty, its
    first element has a [content] with [parts], and [parts] is not empty.
    A first candidate that is [null] makes the guard throw on reading its
    [content]; a first part that is [null] makes line 252 throw on reading
    its [text]. *)
Definition refinement_guard (result : GeminiBody) : Guard :=
  match gemini_candidates result with
  | Some (Some candidate :: _) =>
      match candidate_content candidate with
      | Some content =>
          match content_parts content with
          | Some (Some part :: _) => GuardPasses (part_text part)
          | Some (None :: _) => GuardThrows (Js.TypeError_null "text")
          | Some [] | None => GuardFails
          end
      | None => GuardFails
      end
  | Some (None :: _) => GuardThrows (Js.TypeError_null "content")
  | Some [] | None => GuardFails
  end.

(** The text that line 252 reads, when the guard passes. *)
Definition first_candidate_text (result : GeminiBody) : option Js.value :=
  match refinement_guard result with
  | GuardPasses text => Some text
  | GuardFails | GuardThrows _ => None
  end.

(** The [try] block after the request, up to the first setter: the parsed
    result on which the guard passes or fails, or the message of the error
    thrown -- by the code for a response that is not ok, by [json()] for a
    body that does not parse, or as a [TypeError] for a body that is [null]
    or a result on which the guard or the read throws. *)
Definition gemini_try (o : FetchOutcome GeminiBody) : string + GeminiBody :=
  match o with
  | FetchRejected message => inl message
  | FetchResolved r =>
      if negb (ok r) then inl (api_error "Gemini" gemini_message r)
      else match json r with
           | JsonRejected message => inl message
           | JsonNull => inl (Js.TypeError_null "candidates")
           | JsonParsed result =>
               match refinement_guard result with
               | GuardThrows message => inl message
               | GuardPasses _ | GuardFails => inr result
               end
           end
  end.

(** [handleRefineQuestion] once the request has settled (lines 243-264). *)
Definition handleRefineQuestion_resume (o : FetchOutcome GeminiBody)
                                       (s : State) : State :=
  let s :=
    match gemini_try o with
    | inr result =>
        match first_candidate_text result with
        | Some text =>
            s |> setRefinedQuestion text
              |> setStatusMessage
                   "Question refined by Gemini! You can now get an AI answer."
        | None =>
            s |> setStatusMessage
                   "Gemini did not return a valid refinement. Try again."
        end
    | inl message =>
        s |> setStatusMessage ("Error refining question: " ++ message ++ ".")
    end in
  s |> setIsRefining false.

(** A whole run of stage 2, nothing happening during its [await]s. *)
Definition handleRefineQuestion (render : State) (o : FetchOutcome GeminiBody)
                                (s : State) : State * list Effect :=
  let '(s1, es) := handleRefineQuestion_begin render s in
  match es with
  | [] => (s1, es)
  | _ :: _ => (handleRefineQuestion_resume o s1, es)
  end.

(** ** Sessions *)

(** What happens to the component, one event at a time.  A click runs the
    handler of the render on screen, whose state values are the current
    ones; [RecorderStopped] is the [stop] event of the recorder held by
    [mediaRecorderRef], whose handler dates from the click that made it. *)
Inductive Event :=
| Mount (o : AcquireOutcome)
| ClickStart (o : AcquireOutcome) (mr : RecorderOutcome)
| DataAvailable (data : Blob)
| ClickStop
| RecorderStopped
| SttSettled (o : FetchOutcome SttBody)
| ClickRefine
| GeminiSettled (o : FetchOutcome GeminiBody)
| ClickAnswer
| OpenAiSettled (o : FetchOutcome OpenAiBody).

(** Lifts a handler on the state to the component. *)
Definition onState (h : State -> State * list Effect)
                   (a : App) : App * list Effect :=
  let '(s, es) := h (state a) in (withState (fun _ => s) a, es).

Definition step (a : App) (e : Event) : App * list Effect :=
  match e with
  | Mount o => (getDisplayMediaAudio o a, [])
  | ClickStart o mr => startRecording (state a) o mr a
  | DataAvailable data => (withState (ondataavailable data) a, [])
  | ClickStop => stopRecording a
  | RecorderStopped =>
      match mediaRecorderRef a with
      | Some rec => onState (onstop rec) a
      | None => (a, [])
      end
  | SttSettled o => (withState (sendAudioForProcessing_resume o) a, [])
  | ClickRefine => onState (handleRefineQuestion_begin (state a)) a
  | GeminiSettled o => (withState (handleRefineQuestion_resume o) a, [])
  | ClickAnswer => onState (getAiAnswer_begin (state a)) a
  | OpenAiSettled o => (withState (getAiAnswer_resume o) a, [])
  end.

(** A session: the events in order, the effects accumulated in order. *)
Fixpoint run (events : list Event) (a : App) : App * list Effect :=
  match events with
  | [] => (a, [])
  | e :: events' =>
      let '(a1, es1) := step a e in
      let '(a2, es2) := run events' a1 in
      (a2, es1 ++ es2)
  end.

(** One recording on a component that holds a stream: start, the chunk
    events, stop, and the recorder's [stop] event. *)
Definition recording_of (chunks : list Blob) : list Event :=
  ClickStart (Acquired None) RecorderStarted
  :: map DataAvailable chunks ++ [ClickStop; RecorderStopped].

(** ** Stages and their busy flags *)

Inductive Stage := Transcribe | Refine | Answer.

(** The flag a stage raises when it starts and lowers in its [finally]:
    [isLoading] for transcription ([stopRecording], [sendAudioForProcessing])
    and for the answer ([getAiAnswer]), [isRefining] for the refinement
    ([handleRefineQuestion]). *)
Definition busy (g : Stage) (s : State) : bool :=
  match g with
  | Transcribe => isLoading s
  | Refine => isRefining s
  | Answer => isLoading s
  end.

Definition setBusy (g : Stage) (v : bool) (s : State) : State :=
  match g with
  | Transcribe => setIsLoading v s
  | Refine => setIsRefining v s
  | Answer => setIsLoading v s
  end.

(** The controller is recording when [mediaRecorderRef] holds a recorder
    whose state is [recording]: the test of [stopRecording]. *)
Definition in_Recording (a : App) : bool :=
  match mediaRecorderRef a with
  | Some rec => RecorderState_eqb (recorder_state rec) recording
  | None => false
  end.

(** The remote call of a stage failed: the request was rejected (transport
    error) or answered with a status outside 200-299. *)
Definition remote_call_failed {B} (o : FetchOutcome B) : bool :=
  match o with
  | FetchRejected _ => true
  | FetchResolved r => negb (ok r)
  end.

(** The chunks that [ondataavailable] keeps. *)
Definition kept (chunks : list Blob) : list Blob :=
  filter (fun data => (0 <? size data)%nat) chunks.

(** A result of the Refinement Service, not [null], without a usable first
    candidate: no [candidates], an empty [candidates] array, a first
    candidate that is not [null] and has no [content], a content without
    [parts], or an empty [parts] array. *)
Inductive no_usable_candidate : GeminiBody -> Prop :=
| candidates_missing m :
    no_usable_candidate (mkGeminiBody None m)
| candidates_empty m :
    no_usable_candidate (mkGeminiBody (Some []) m)
| content_missing rest m :
    no_usable_candidate
      (mkGeminiBody (Some (Some (mkCandidate None) :: rest)) m)
| parts_missing rest m :
    no_usable_candidate
      (mkGeminiBody
         (Some (Some (mkCandidate (Some (mkContent None))) :: rest)) m)
| parts_empty rest m :
    no_usable_candidate
      (mkGeminiBody
         (Some (Some (mkCandidate (Some (mkContent (Some [])))) :: rest)) m).

(** ** Sample inputs *)

Module Sample.

(** A chunk of [n] zero bytes, as the recorder labels them. *)
Definition chunk (n : nat) : Blob := mkBlob (repeat Byte.x00 n) "audio/webm".

Definition stream : MediaStream := mkMediaStream 1.

(** The component after its mount effect obtained a stream. *)
Definition mounted : App := getDisplayMediaAudio (Acquired (Some stream)) initialApp.

(** A first recording of three chunks, from start to the [stop] event. *)
Definition first_recording : list Event :=
  [ ClickStart (Acquired (Some stream)) RecorderStarted;
    DataAvailable (chunk 4000);
    DataAvailable (chunk 4000);
    DataAvailable (chunk 2000);
    ClickStop;
    RecorderStopped ].

(** A state with a transcript, a refined question and an answer. *)
Definition answered : State :=
  mkState false [] "so um what is a monad" (Some "What is a monad?")
          "A monoid in the category of endofunctors."
          "AI Answer received!" false false.

(** A state with a transcript only. *)
Definition transcribed : State :=
  mkState false [] "so um what is a monad" (Some "") ""
          "Transcription received. You can now refine it or get an AI answer."
          false false.

(** A render whose chunk buffer holds ten bytes. *)
Definition with_audio : State :=
  mkState false [chunk 4; chunk 6] "" (Some "") "" "Processing tab audio..."
          true false.

(** The Transcription Service answering [500 {message: boom}]. *)
Definition boom : FetchOutcome SttBody :=
  FetchResolved
    (mkResponse 500 "Internal Server Error"
                (JsonParsed (mkSttBody None (Some "boom")))).

(** The Refinement Service answering [200 {candidates: []}]. *)
Definition no_candidates : FetchOutcome GeminiBody :=
  FetchResolved
    (mkResponse 200 "OK" (JsonParsed (mkGeminiBody (Some []) None))).

(** The Refinement Service answering
    [200 {candidates: [{content: {parts: [{}]}}]}]: one candidate, whose
    only part carries no [text]. *)
Definition textless_candidate : FetchOutcome GeminiBody :=
  FetchResolved
    (mkResponse 200 "OK"
       (JsonParsed
          (mkGeminiBody
             (Some [Some (mkCandidate
                            (Some (mkContent (Some [Some (mkPart None)]))))])
             None))).

(** The Refinement Service answering [200 null]. *)
Definition null_refinement : FetchOutcome GeminiBody :=
  FetchResolved (mkResponse 200 "OK" JsonNull).

(** The Refinement Service answering [200 {candidates: [null]}]. *)
Definition null_candidate : FetchOutcome GeminiBody :=
  FetchResolved
    (mkResponse 200 "OK" (JsonParsed (mkGeminiBody (Some [None]) None))).

End Sample.

(** ** The controls *)

(** What the rendered component lets the user do (lines 267-359): for each
    button, whether it is rendered and whether it is disabled.  Styling,
    labels and the text panels are not part of the model. *)
Module View.

(** Start Recording: [disabled={isRecording || isLoading}] (line 281). *)
Definition start_disabled (s : State) : bool := isRecording s || isLoading s.

(** Stop Recording: [disabled={!isRecording || isLoading}] (line 290). *)
Definition stop_disabled (s : State) : bool :=
  negb (isRecording s) || isLoading s.

(** The spinner: [(isLoading || isRefining) && ...] (line 300). *)
Definition spinner (s : State) : bool := isLoading s || isRefining s.

(** Refine Question is rendered under [transcribedText && ...] (line 312),
    with [disabled={isRefining || isLoading}] (line 316). *)
Definition refine_rendered (s : State) : bool :=
  Js.truthy_str (transcribedText s).

Definition refine_disabled (s : State) : bool := isRefining s || isLoading s.

(** The refined question is shown under [refinedQuestion && ...]
    (line 328). *)
Definition refined_rendered (s : State) : bool :=
  Js.truthy (refinedQuestion s).

(** Get AI Answer is rendered under [(transcribedText || refinedQuestion)
    && ...] (line 336), with [disabled={isLoading || isRefining}]
    (line 340). *)
Definition answer_rendered (s : State) : bool :=
  Js.truthy_str (transcribedText s) || Js.truthy (refinedQuestion s).

Definition answer_disabled (s : State) : bool := isLoading s || isRefining s.

End View.

(** An event can happen in a state: a click needs its button rendered and
    not disabled; the platform's events are not gated by the component. *)
Definition clickable (s : State) (e : Event) : bool :=
  match e with
  | ClickStart _ _ => negb (View.start_disabled s)
  | ClickStop => negb (View.stop_disabled s)
  | ClickRefine => View.refine_rendered s && negb (View.refine_disabled s)
  | ClickAnswer => View.answer_rendered s && negb (View.answer_disabled s)
  | Mount _ | DataAvailable _ | RecorderStopped
  | SttSettled _ | GeminiSettled _ | OpenAiSettled _ => true
  end.

(** A session in which every click is on a button that can be clicked. *)
Fixpoint permitted (events : list Event) (a : App) : bool :=
  match events with
  | [] => true
  | e :: events' => clickable (state a) e && permitted events' (fst (step a e))
  end.

(** Every chunk of a list carries at least one byte. *)
Definition no_empty_chunk (chunks : list Blob) : Prop :=
  Forall (fun data => 0 < size data) chunks.

(** * Properties *)

(** ** Blobs and the chunk buffer *)

Section ChunkBuffer.

Lemma size_new_Blob (parts : list Blob) (type : string) :
  size (new_Blob parts type) = list_sum (map size parts).
Proof.
  unfold size, new_Blob; simpl.
  induction parts as [|p parts IH]; simpl; [reflexivity|].
  now rewrite length_app, IH.
Qed.

Lemma size_new_Blob_zero (parts : list Blob) (type : string) :
  size (new_Blob parts type) = 0 <-> Forall (fun p => size p = 0) parts.
Proof.
  rewrite size_new_Blob.
  induction parts as [|p parts IH]; simpl.
  - split; [constructor | reflexivity].
  - split.
    + intros H. constructor; [lia | apply IH; lia].
    + intros H. inversion H; subst. apply IH in H3. lia.
Qed.

Lemma ondataavailable_empty (data : Blob) (s : State) :
  size data = 0 -> ondataavailable data s = s.
Proof.
  intros H. unfold ondataavailable. now rewrite H.
Qed.

Lemma ondataavailable_nonempty (data : Blob) (s : State) :
  0 < size data ->
  ondataavailable data s = setAudioChunks (audioChunks s ++ [data]) s.
Proof.
  intros H. unfold ondataavailable.
  apply Nat.ltb_lt in H. now rewrite H.
Qed.

Lemma deliver_spec (chunks : list Blob) (s : State) :
  deliver chunks s = setAudioChunks (audioChunks s ++ kept chunks) s.
Proof.
  revert s. unfold deliver.
  induction chunks as [|data chunks IH]; intros s; simpl.
  - rewrite app_nil_r. now destruct s.
  - rewrite IH. unfold ondataavailable.
    destruct (0 <? size data)%nat; simpl.
    + unfold updateAudioChunks, setAudioChunks; simpl.
      now rewrite <- app_assoc.
    + reflexivity.
Qed.

Lemma audioChunks_deliver (chunks : list Blob) (s : State) :
  audioChunks (deliver chunks s) = audioChunks s ++ kept chunks.
Proof. now rewrite deliver_spec. Qed.

Lemma kept_all_nonempty (chunks : list Blob) :
  Forall (fun data => 0 < size data) chunks -> kept chunks = chunks.
Proof.
  induction 1 as [|data chunks Hd _ IH]; simpl; [reflexivity|].
  apply Nat.ltb_lt in Hd. now rewrite Hd, IH.
Qed.

Lemma size_kept (chunks : list Blob) :
  list_sum (map size (kept chunks)) = list_sum (map size chunks).
Proof.
  induction chunks as [|data chunks IH]; simpl; [reflexivity|].
  destruct (0 <? size data)%nat eqn:E; simpl.
  - now rewrite IH.
  - apply Nat.ltb_ge in E. lia.
Qed.

(** The bytes of a payload made of the kept chunks are the bytes of all the
    chunks delivered, in order: an empty chunk has no bytes to lose. *)
Lemma blob_bytes_kept (chunks : list Blob) (type : string) :
  blob_bytes (new_Blob (kept chunks) type) = concat (map blob_bytes chunks).
Proof.
  unfold new_Blob; simpl.
  induction chunks as [|data chunks IH]; simpl; [reflexivity|].
  destruct (0 <? size data)%nat eqn:E; simpl.
  - now rewrite IH.
  - apply Nat.ltb_ge in E. unfold size in E.
    destruct (blob_bytes data); [exact IH | simpl in E; lia].
Qed.

(** A payload made from the buffer after the deliveries that follow a
    reset has the size of all the chunks delivered. *)
Lemma size_payload_of_buffer (chunks : list Blob) (s : State) :
  audioChunks s = [] ->
  size (new_Blob (audioChunks (deliver chunks s)) "audio/webm")
  = list_sum (map size chunks).
Proof.
  intros H. rewrite audioChunks_deliver, H, size_new_Blob. simpl.
  apply size_kept.
Qed.

End ChunkBuffer.

(** ** Capture session controller *)

Section Controller.

(** Unfolds the handlers of the controller down to the setters. *)
Ltac controller :=
  unfold startRecording, startRecording_begin, startRecording_resume,
         startRecording_record, stopRecording, withState,
         setMediaRecorderRef, setAudioStreamRef in *;
  simpl in *.

(** The recording part of [startRecording] leaves the buffer and the three
    result fields empty, whatever the recorder does. *)
Lemma startRecording_record_clears render mr a :
  let s' := state (fst (startRecording_record render mr a)) in
  audioChunks s' = [] /\ transcribedText s' = ""
  /\ refinedQuestion s' = Some "" /\ aiAnswer s' = "".
Proof.
  destruct mr; controller; repeat split.
Qed.

(** The recorder is started only by the recording part. *)
Lemma startRecording_started render o mr a :
  In (RecorderStart 1000) (snd (startRecording render o mr a)) ->
  exists a0, startRecording_record render mr a0 =
             (fst (startRecording render o mr a), [RecorderStart 1000]).
Proof.
  unfold startRecording, startRecording_begin, startRecording_resume.
  destruct (audioStreamRef a) as [str|] eqn:Ha.
  - intros H. exists a.
    destruct mr; simpl in H; solve [reflexivity | tauto].
  - destruct o as [[str|]|name message]; simpl.
    + destruct mr; simpl; intros [H|H]; try discriminate; try tauto.
      eexists. reflexivity.
    + intros [H|[]]; discriminate.
    + intros [H|[]]; discriminate.
Qed.

(** Deliveries touch the buffer only. *)
Lemma deliver_frame chunks s :
  transcribedText (deliver chunks s) = transcribedText s
  /\ refinedQuestion (deliver chunks s) = refinedQuestion s
  /\ aiAnswer (deliver chunks s) = aiAnswer s
  /\ statusMessage (deliver chunks s) = statusMessage s
  /\ isRecording (deliver chunks s) = isRecording s
  /\ isLoading (deliver chunks s) = isLoading s
  /\ isRefining (deliver chunks s) = isRefining s.
Proof.
  rewrite deliver_spec. repeat split.
Qed.

(** C5. Every successful [startRecording] (one that starts the recorder)
    leaves the chunk buffer, the transcript, the refined question and the
    answer empty; the chunks delivered afterwards are appended to that
    empty buffer, so the buffer then holds the new non-empty chunks only,
    in order, and the three result fields are still empty. *)
Theorem startRecording_clears_before_chunks render o mr a :
  In (RecorderStart 1000) (snd (startRecording render o mr a)) ->
  let s' := state (fst (startRecording render o mr a)) in
  (audioChunks s' = [] /\ transcribedText s' = ""
   /\ refinedQuestion s' = Some "" /\ aiAnswer s' = "")
  /\ forall chunks,
       audioChunks (deliver chunks s') = kept chunks
       /\ transcribedText (deliver chunks s') = ""
       /\ refinedQuestion (deliver chunks s') = Some ""
       /\ aiAnswer (deliver chunks s') = "".
Proof.
  intros Hstart s'.
  destruct (startRecording_started _ _ _ _ Hstart) as [a0 Ha0].
  pose proof (startRecording_record_clears render mr a0) as Hclear.
  rewrite Ha0 in Hclear. simpl in Hclear. fold s' in Hclear.
  destruct Hclear as (Hc & Ht & Hr & Ha).
  split; [now repeat split|].
  intros chunks.
  destruct (deliver_frame chunks s') as (Ft & Fr & Fa & _).
  rewrite audioChunks_deliver, Hc, Ft, Fr, Fa. now repeat split.
Qed.

Lemma startRecording_clears_before_chunks_witness :
  In (RecorderStart 1000)
     (snd (startRecording Sample.answered (Acquired None) RecorderStarted
                          (mkApp Sample.answered None (Some Sample.stream))))
  /\ audioChunks
       (deliver [Sample.chunk 3; Sample.chunk 0; Sample.chunk 2]
          (state (fst (startRecording Sample.answered (Acquired None)
                         RecorderStarted
                         (mkApp Sample.answered None (Some Sample.stream))))))
     = kept [Sample.chunk 3; Sample.chunk 0; Sample.chunk 2].
Proof.
  split.
  - simpl. left. reflexivity.
  - apply (startRecording_clears_before_chunks
             Sample.answered (Acquired None) RecorderStarted
             (mkApp Sample.answered None (Some Sample.stream))).
    simpl. left. reflexivity.
Defined.

(** In [Recording], [stopRecording] does stop the recorder. *)
Lemma stopRecording_in_Recording a :
  in_Recording a = true ->
  snd (stopRecording a) = [RecorderStop]
  /\ in_Recording (fst (stopRecording a)) = false
  /\ isLoading (state (fst (stopRecording a))) = true.
Proof.
  unfold in_Recording, stopRecording.
  destruct (mediaRecorderRef a) as [rec|]; [|discriminate].
  intros ->. repeat split.
Qed.

(** C6. Outside [Recording], [stopRecording] returns the component as it
    was (state and refs) and asks nothing of the platform: the recorder is
    not stopped, so no [stop] event hands a payload to the pipeline. *)
Theorem stopRecording_outside_Recording a :
  in_Recording a = false -> stopRecording a = (a, []).
Proof.
  unfold in_Recording, stopRecording.
  destruct (mediaRecorderRef a) as [rec|]; [|reflexivity].
  now intros ->.
Qed.

Lemma stopRecording_outside_Recording_witness :
  in_Recording Sample.mounted = false
  /\ stopRecording Sample.mounted = (Sample.mounted, []).
Proof.
  split; [reflexivity|].
  apply (stopRecording_outside_Recording Sample.mounted). reflexivity.
Defined.

End Controller.

(** ** Pipeline orchestrator *)

Section Pipeline.

(** Unfolds the three stages down to the setters. *)
Ltac stages :=
  unfold sendAudioForProcessing, sendAudioForProcessing_begin,
         sendAudioForProcessing_resume,
         getAiAnswer, getAiAnswer_begin, getAiAnswer_resume,
         handleRefineQuestion, handleRefineQuestion_begin,
         handleRefineQuestion_resume in *.

Lemma truthy_str_false s : Js.truthy_str s = false <-> s = "".
Proof.
  destruct s; simpl; split; intros H; try reflexivity; discriminate.
Qed.

Lemma or_truthy v t :
  Js.truthy v = true -> Some (Js.or v t) = v.
Proof.
  destruct v as [[|c r]|]; simpl; intros H; try discriminate. reflexivity.
Qed.

Lemma or_falsy v t :
  Js.truthy v = false -> Js.or v t = t.
Proof.
  destruct v as [[|c r]|]; simpl; intros H; try discriminate; reflexivity.
Qed.

(** A failed remote call makes the [try] block of stage 3 throw. *)
Lemma openai_try_failed o :
  remote_call_failed o = true -> exists message, openai_try o = inl message.
Proof.
  destruct o as [m|r]; simpl; intros H.
  - now exists m.
  - rewrite H. eexists. reflexivity.
Qed.

(** *** Stage 3 *)

(** Stage 3 issues its request exactly when there is a question to send. *)
Lemma getAiAnswer_issues_request render s :
  snd (getAiAnswer_begin render s) =
  if Js.truthy_str (questionToSend render)
  then [Fetch (openai_request (questionToSend render))] else [].
Proof.
  stages. now destruct (Js.truthy_str (questionToSend render)).
Qed.

(** C1 (amended). When [getAiAnswer] has sent its request and the remote
    call fails (the request is rejected, or the response is not ok), the
    status becomes the error message, the busy flag [isLoading] is
    lowered, the transcript and the refined question (and the buffer and
    the other flags) are as before, and the answer field is empty: it was
    cleared when the request was sent. *)
Theorem getAiAnswer_failure_keeps_inputs render o s :
  Js.truthy_str (questionToSend render) = true ->
  remote_call_failed o = true ->
  let s' := fst (getAiAnswer render o s) in
  transcribedText s' = transcribedText s
  /\ refinedQuestion s' = refinedQuestion s
  /\ audioChunks s' = audioChunks s
  /\ isRecording s' = isRecording s
  /\ isRefining s' = isRefining s
  /\ isLoading s' = false
  /\ aiAnswer s' = ""
  /\ exists message,
       statusMessage s' =
       ("Error getting AI answer: " ++ message ++ ". Please try again.")%string.
Proof.
  intros Hq Hfail.
  destruct (openai_try_failed o Hfail) as [message Hm].
  stages. rewrite Hq. simpl. rewrite Hm. simpl.
  repeat split. now exists message.
Qed.

Lemma getAiAnswer_failure_keeps_inputs_witness :
  Js.truthy_str (questionToSend Sample.answered) = true
  /\ remote_call_failed (@FetchRejected OpenAiBody "Failed to fetch") = true
  /\ refinedQuestion
       (fst (getAiAnswer Sample.answered (FetchRejected "Failed to fetch")
                         Sample.answered))
     = refinedQuestion Sample.answered.
Proof.
  split; [reflexivity|]. split; [reflexivity|].
  apply (getAiAnswer_failure_keeps_inputs
           Sample.answered (FetchRejected "Failed to fetch") Sample.answered);
    reflexivity.
Defined.

(** C1 (as stated) fails: with an answer stored, a rejected request leaves
    the answer field empty, not as it was. *)
Lemma getAiAnswer_failure_loses_answer :
  let o := @FetchRejected OpenAiBody "Failed to fetch" in
  let s' := fst (getAiAnswer Sample.answered o Sample.answered) in
  remote_call_failed o = true
  /\ requests (snd (getAiAnswer Sample.answered o Sample.answered))
     = [openai_request "What is a monad?"]
  /\ aiAnswer Sample.answered = "A monoid in the category of endofunctors."
  /\ aiAnswer s' = ""
  /\ aiAnswer s' <> aiAnswer Sample.answered.
Proof.
  simpl. repeat split. discriminate.
Qed.

(** C2. Whenever [getAiAnswer] issues a request, it is the only one, its
    body is the document [{ question }], and [question] is the refined
    text when that is non-empty and the transcript otherwise. *)
Theorem getAiAnswer_sends_refined_else_transcript render s req :
  In (Fetch req) (snd (getAiAnswer_begin render s)) ->
  exists question,
    req_body req = JsonBody (JObj [("question", JStr question)])
    /\ snd (getAiAnswer_begin render s) = [Fetch req]
    /\ (Js.truthy (refinedQuestion render) = true ->
        Some question = refinedQuestion render)
    /\ (Js.truthy (refinedQuestion render) = false ->
        question = transcribedText render).
Proof.
  rewrite getAiAnswer_issues_request.
  destruct (Js.truthy_str (questionToSend render)); simpl; [|tauto].
  intros [H|[]]. injection H as <-.
  exists (questionToSend render). unfold questionToSend.
  repeat split.
  - apply or_truthy.
  - apply or_falsy.
Qed.

Lemma getAiAnswer_sends_refined_else_transcript_witness :
  In (Fetch (openai_request "What is a monad?"))
     (snd (getAiAnswer_begin Sample.answered Sample.answered))
  /\ exists question,
       req_body (openai_request "What is a monad?")
       = JsonBody (JObj [("question", JStr question)])
       /\ snd (getAiAnswer_begin Sample.answered Sample.answered)
          = [Fetch (openai_request "What is a monad?")]
       /\ (Js.truthy (refinedQuestion Sample.answered) = true ->
           Some question = refinedQuestion Sample.answered)
       /\ (Js.truthy (refinedQuestion Sample.answered) = false ->
           question = transcribedText Sample.answered).
Proof.
  split.
  - simpl. left. reflexivity.
  - apply (getAiAnswer_sends_refined_else_transcript
             Sample.answered Sample.answered
             (openai_request "What is a monad?")).
    simpl. left. reflexivity.
Defined.

(** *** Preconditions of the three stages *)

(** C3. A processing run on a payload of size zero issues no request,
    writes the no-audio status and lowers [isLoading]; a refinement run on
    an empty transcript, and an answer run on an empty transcript and an
    empty refined text, issue no request and write their own status. *)
Theorem stages_need_input render s :
  (size (new_Blob (audioChunks render) "audio/webm") = 0 ->
   forall o,
     sendAudioForProcessing render o s =
     (s |> setStatusMessage
             "No audio recorded from the tab. Please ensure audio is playing and you record for a sufficient duration."
        |> setIsLoading false,
      []))
  /\ (transcribedText render = "" ->
      forall o,
        handleRefineQuestion render o s =
        (s |> setStatusMessage
                "Please transcribe audio first to refine a question.",
         []))
  /\ (transcribedText render = "" ->
      Js.truthy (refinedQuestion render) = false ->
      forall o,
        getAiAnswer render o s =
        (s |> setStatusMessage
                "Please transcribe audio or refine a question first.",
         [])).
Proof.
  split; [|split].
  - intros H o. stages. now rewrite H.
  - intros H o. stages. now rewrite H.
  - intros Ht Hr o. stages. unfold questionToSend.
    rewrite (or_falsy _ _ Hr), Ht. reflexivity.
Qed.

Lemma stages_need_input_witness :
  (forall o,
     snd (sendAudioForProcessing
            (setAudioChunks [Sample.chunk 0] initialState) o initialState)
     = [])
  /\ (forall o, snd (handleRefineQuestion initialState o initialState) = [])
  /\ (forall o, snd (getAiAnswer initialState o initialState) = []).
Proof.
  destruct (stages_need_input
              (setAudioChunks [Sample.chunk 0] initialState) initialState)
    as (H1 & _).
  destruct (stages_need_input initialState initialState) as (_ & H2 & H3).
  split; [|split]; intros o.
  - rewrite (H1 eq_refl o). reflexivity.
  - rewrite (H2 eq_refl o). reflexivity.
  - rewrite (H3 eq_refl eq_refl o). reflexivity.
Defined.

(** *** Stage 1 *)

(** Stage 1 issues its request exactly when the payload is not empty. *)
Lemma sendAudioForProcessing_issues_request render s :
  snd (sendAudioForProcessing_begin render s) =
  if (size (new_Blob (audioChunks render) "audio/webm") =? 0)%nat
  then []
  else [Fetch (stt_request (new_Blob (audioChunks render) "audio/webm"))].
Proof.
  stages.
  now destruct (size (new_Blob (audioChunks render) "audio/webm") =? 0)%nat.
Qed.

(** On a payload that is not empty, a whole run is the first part followed
    by the second. *)
Lemma sendAudioForProcessing_nonempty render o s :
  size (new_Blob (audioChunks render) "audio/webm") <> 0 ->
  fst (sendAudioForProcessing render o s) =
  sendAudioForProcessing_resume o
    (setStatusMessage "Sending tab audio for transcription..." s).
Proof.
  intros H. apply Nat.eqb_neq in H.
  unfold sendAudioForProcessing, sendAudioForProcessing_begin.
  now rewrite H.
Qed.

(** The second part of stage 1 always ends in its [finally]. *)
Lemma sendAudioForProcessing_resume_finally o s :
  audioChunks (sendAudioForProcessing_resume o s) = []
  /\ isLoading (sendAudioForProcessing_resume o s) = false.
Proof.
  unfold sendAudioForProcessing_resume. split; reflexivity.
Qed.

(** C9. When the Transcription Service answers 500 with the body
    [{ message: boom }], the status after the run contains [boom], the
    transcript is as before (empty if it was empty) and [isLoading] is
    lowered. *)
Theorem transcription_500_boom render s text transcription :
  size (new_Blob (audioChunks render) "audio/webm") <> 0 ->
  let o := FetchResolved
             (mkResponse 500 text
                (JsonParsed (mkSttBody transcription (Some "boom")))) in
  let s' := fst (sendAudioForProcessing render o s) in
  Js.includes "boom" (statusMessage s') = true
  /\ transcribedText s' = transcribedText s
  /\ (transcribedText s = "" -> transcribedText s' = "")
  /\ isLoading s' = false.
Proof.
  intros H o s'. subst s'.
  rewrite (sendAudioForProcessing_nonempty render o s H).
  subst o. unfold sendAudioForProcessing_resume. simpl.
  repeat split. tauto.
Qed.

Lemma transcription_500_boom_witness :
  size (new_Blob (audioChunks Sample.with_audio) "audio/webm") <> 0
  /\ statusMessage
       (fst (sendAudioForProcessing Sample.with_audio Sample.boom
                                    Sample.with_audio))
     = "Error during transcription: STT API error: 500 - boom. Please try again."
  /\ Js.includes "boom"
       (statusMessage
          (fst (sendAudioForProcessing Sample.with_audio Sample.boom
                                       Sample.with_audio))) = true.
Proof.
  split; [discriminate|]. split; [reflexivity|].
  apply (transcription_500_boom Sample.with_audio Sample.with_audio
           "Internal Server Error" None).
  discriminate.
Defined.

(** C10. After every run of stage 1 on a payload that is not empty,
    whatever the outcome of the remote call, the chunk buffer is empty;
    a processing run by the handlers of a render of that state (a retry
    without a new recording) then finds no audio and issues no request. *)
Theorem transcription_clears_buffer render o s :
  size (new_Blob (audioChunks render) "audio/webm") <> 0 ->
  let s' := fst (sendAudioForProcessing render o s) in
  audioChunks s' = []
  /\ forall o' s'', snd (sendAudioForProcessing s' o' s'') = [].
Proof.
  intros H s'. subst s'.
  rewrite (sendAudioForProcessing_nonempty render o s H).
  destruct (sendAudioForProcessing_resume_finally
              o (setStatusMessage "Sending tab audio for transcription..." s))
    as [Hc _].
  split; [exact Hc|].
  intros o' s''.
  unfold sendAudioForProcessing, sendAudioForProcessing_begin.
  rewrite Hc. reflexivity.
Qed.

Lemma transcription_clears_buffer_witness :
  size (new_Blob (audioChunks Sample.with_audio) "audio/webm") <> 0
  /\ audioChunks
       (fst (sendAudioForProcessing Sample.with_audio Sample.boom
                                    Sample.with_audio)) = [].
Proof.
  split; [discriminate|].
  apply (transcription_clears_buffer Sample.with_audio Sample.boom
           Sample.with_audio).
  discriminate.
Defined.

(** *** Stage 2 *)

(** The results without a usable first candidate are those on which the
    guard fails without throwing. *)
Lemma no_usable_candidate_guard result :
  no_usable_candidate result <-> refinement_guard result = GuardFails.
Proof.
  split.
  - destruct 1; reflexivity.
  - destruct result as [candidates m].
    destruct candidates as [[|[[content]|] rest]|]; simpl;
      try discriminate; try (intros _; constructor).
    destruct content as [[parts]|]; simpl; try (intros _; constructor).
    destruct parts as [[|[part|] parts]|]; simpl;
      try discriminate; intros _; constructor.
Qed.

(** A body that is [null], a first candidate that is [null] and a first
    part that is [null] make the [try] block throw: the run ends in the
    [catch], with the refined question empty, the transcript as before and
    the status of an error. *)
Lemma refinement_null_is_an_error render s r :
  Js.truthy_str (transcribedText render) = true ->
  ok r = true ->
  (json r = JsonNull
   \/ exists result message,
        json r = JsonParsed result
        /\ refinement_guard result = GuardThrows message) ->
  let s' := fst (handleRefineQuestion render (FetchResolved r) s) in
  (exists message,
      statusMessage s' = ("Error refining question: " ++ message ++ ".")%string)
  /\ refinedQuestion s' = Some ""
  /\ transcribedText s' = transcribedText s
  /\ isRefining s' = false.
Proof.
  intros Ht Hok Hnull. stages. unfold gemini_try.
  rewrite Ht, Hok. cbn [negb fst snd].
  destruct Hnull as [Hjson|[result [message [Hjson Hguard]]]]; rewrite Hjson.
  - split; [exists (Js.TypeError_null "candidates")|]; repeat split.
  - rewrite Hguard. split; [exists message|]; repeat split.
Qed.

(** For instance a body [null] and a body [{candidates: [null]}] end in the
    status of an error, the first on reading [candidates], the second on
    reading the [content] of the first candidate. *)
Lemma null_refinements_are_errors :
  statusMessage
    (fst (handleRefineQuestion Sample.transcribed Sample.null_refinement
                               Sample.transcribed))
  = ("Error refining question: " ++ Js.TypeError_null "candidates" ++ ".")%string
  /\ statusMessage
       (fst (handleRefineQuestion Sample.transcribed Sample.null_candidate
                                  Sample.transcribed))
     = ("Error refining question: " ++ Js.TypeError_null "content" ++ ".")%string.
Proof.
  split; reflexivity.
Qed.

(** C8 (amended). When the Refinement Service answers with an ok response
    whose body parses to a value other than [null] and whose [candidates]
    array is empty (or which has no [candidates], or whose first candidate
    is not [null] and has no [content], no [parts] or an empty [parts]
    array), the [try] block does not throw, the refined question is empty
    after the run, the status says that no valid refinement was returned,
    the transcript is as before and [isRefining] is lowered. *)
Theorem refinement_without_usable_candidate render s r result :
  Js.truthy_str (transcribedText render) = true ->
  ok r = true ->
  json r = JsonParsed result ->
  no_usable_candidate result ->
  let s' := fst (handleRefineQuestion render (FetchResolved r) s) in
  gemini_try (FetchResolved r) = inr result
  /\ refinedQuestion s' = Some ""
  /\ statusMessage s' = "Gemini did not return a valid refinement. Try again."
  /\ transcribedText s' = transcribedText s
  /\ isRefining s' = false.
Proof.
  intros Ht Hok Hjson Hno.
  apply no_usable_candidate_guard in Hno.
  stages. unfold gemini_try, first_candidate_text.
  rewrite Ht, Hok, Hjson. simpl. rewrite Hno. simpl. rewrite Hno.
  repeat split.
Qed.

Lemma refinement_without_usable_candidate_witness :
  Js.truthy_str (transcribedText Sample.transcribed) = true
  /\ no_usable_candidate (mkGeminiBody (Some []) None)
  /\ statusMessage
       (fst (handleRefineQuestion Sample.transcribed Sample.no_candidates
                                  Sample.transcribed))
     = "Gemini did not return a valid refinement. Try again.".
Proof.
  split; [reflexivity|]. split; [constructor|].
  apply (refinement_without_usable_candidate
           Sample.transcribed Sample.transcribed
           (mkResponse 200 "OK" (JsonParsed (mkGeminiBody (Some []) None)))
           (mkGeminiBody (Some []) None));
    solve [reflexivity | constructor].
Defined.

(** C8 (as stated) fails on a response that holds no candidate with text:
    when the only part of the only candidate carries no [text], the status
    announces a refined question and the refined question is [undefined]. *)
Lemma textless_candidate_reported_refined :
  let s' := fst (handleRefineQuestion Sample.transcribed
                   Sample.textless_candidate Sample.transcribed) in
  requests (snd (handleRefineQuestion Sample.transcribed
                   Sample.textless_candidate Sample.transcribed))
  = [gemini_request "so um what is a monad"]
  /\ statusMessage s'
     = "Question refined by Gemini! You can now get an AI answer."
  /\ statusMessage s'
     <> "Gemini did not return a valid refinement. Try again."
  /\ refinedQuestion s' = Js.undefined
  /\ refinedQuestion s' <> Some "".
Proof.
  simpl. repeat split; discriminate.
Qed.

(** *** Busy flags *)

(** C4 (amended). The refinement has a busy flag of its own, [isRefining];
    transcription and answer share the other one, [isLoading].  Raising or
    lowering the refinement's flag never changes the flag of the other two
    stages, and raising or lowering theirs never changes the refinement's;
    the same holds of the handlers: both parts of [handleRefineQuestion]
    leave [isLoading] as it is, and [stopRecording], both parts of
    [sendAudioForProcessing] and both parts of [getAiAnswer] leave
    [isRefining] as it is. *)
Theorem refine_flag_independent :
  (forall v s,
      busy Transcribe (setBusy Refine v s) = busy Transcribe s
      /\ busy Answer (setBusy Refine v s) = busy Answer s
      /\ busy Refine (setBusy Transcribe v s) = busy Refine s
      /\ busy Refine (setBusy Answer v s) = busy Refine s)
  /\ (forall render o s,
         isLoading (fst (handleRefineQuestion_begin render s)) = isLoading s
         /\ isLoading (handleRefineQuestion_resume o s) = isLoading s)
  /\ (forall render o s,
         isRefining (fst (sendAudioForProcessing_begin render s)) = isRefining s
         /\ isRefining (sendAudioForProcessing_resume o s) = isRefining s)
  /\ (forall render o s,
         isRefining (fst (getAiAnswer_begin render s)) = isRefining s
         /\ isRefining (getAiAnswer_resume o s) = isRefining s)
  /\ (forall a,
         isRefining (state (fst (stopRecording a))) = isRefining (state a)).
Proof.
  split; [|split; [|split; [|split]]].
  - intros v s. repeat split.
  - intros render o s. stages. split.
    + now destruct (Js.truthy_str (transcribedText render)).
    + destruct (gemini_try o) as [m|result]; [reflexivity|].
      now destruct (first_candidate_text result).
  - intros render o s. stages. split.
    + now destruct (size (new_Blob (audioChunks render) "audio/webm") =? 0)%nat.
    + destruct (stt_try o) as [m|transcription]; [|reflexivity].
      now destruct (Js.includes "Failed to fetch" m).
  - intros render o s. stages. split.
    + now destruct (Js.truthy_str (questionToSend render)).
    + now destruct (openai_try o).
  - intros a. unfold stopRecording.
    destruct (mediaRecorderRef a) as [rec|]; [|reflexivity].
    now destruct (RecorderState_eqb (recorder_state rec) recording).
Qed.

(** C4 (as stated) fails: transcription and answer do not have a flag each.
    Sending the question raises the flag observed for transcription, and
    the end of an answer run lowers it while a transcription run started by
    [stopRecording] is still to come. *)
Lemma answer_and_transcribe_share_flag :
  let s := Sample.transcribed in
  let stopped := state (fst (stopRecording
                   (mkApp s (Some (mkMediaRecorder recording s)) None))) in
  busy Transcribe s = false
  /\ busy Transcribe (setBusy Answer true s) = true
  /\ busy Transcribe (fst (getAiAnswer_begin s s)) = true
  /\ busy Transcribe stopped = true
  /\ busy Transcribe (getAiAnswer_resume (FetchRejected "Failed to fetch")
                                         stopped) = false.
Proof.
  simpl. repeat split.
Qed.

End Pipeline.

(** ** A recording, from start to the processing run *)

Section Recording.

Lemma run_app events1 events2 a :
  run (events1 ++ events2) a =
  let '(a1, es1) := run events1 a in
  let '(a2, es2) := run events2 a1 in
  (a2, es1 ++ es2).
Proof.
  revert a.
  induction events1 as [|e events1 IH]; intros a; simpl.
  - now destruct (run events2 a).
  - destruct (step a e) as [a1 es1]. rewrite IH.
    destruct (run events1 a1) as [a2 es2].
    destruct (run events2 a2) as [a3 es3].
    now rewrite app_assoc.
Qed.

Lemma run_deliveries chunks a :
  run (map DataAvailable chunks) a = (withState (deliver chunks) a, []).
Proof.
  revert a.
  induction chunks as [|data chunks IH]; intros a; simpl.
  - now destruct a.
  - rewrite IH. now destruct a.
Qed.

(** The payload of the processing run that ends a recording is made of the
    chunks of the render in which the recording was started; the chunks
    delivered during the recording are in the buffer and not in the
    payload. *)
Lemma recording_payload chunks a :
  audioStreamRef a <> None ->
  let payload := new_Blob (audioChunks (state a)) "audio/webm" in
  audioChunks (state (fst (run (recording_of chunks) a))) = kept chunks
  /\ requests (snd (run (recording_of chunks) a)) =
     if (size payload =? 0)%nat then [] else [stt_request payload].
Proof.
  intros Hstream payload. unfold recording_of.
  cbn [run]. unfold step.
  unfold startRecording, startRecording_begin.
  destruct (audioStreamRef a) as [str|] eqn:Hs; [|contradiction].
  cbn [startRecording_record].
  rewrite run_app, run_deliveries.
  cbn [run]. unfold step, stopRecording. cbn -[deliver].
  unfold onState, onstop, sendAudioForProcessing_begin, withState,
         setMediaRecorderRef.
  cbn -[deliver]. rewrite !deliver_spec. cbn.
  destruct (_ =? 0)%nat; cbn; split; reflexivity.
Qed.

(** The next recording sends the chunks of the first one: they are the
    chunks of the render in which the second recording is started. *)
Lemma second_recording_sends_first :
  requests (snd (run (Sample.first_recording
                      ++ recording_of [Sample.chunk 7]) Sample.mounted))
  = [stt_request
       (new_Blob [Sample.chunk 4000; Sample.chunk 4000; Sample.chunk 2000]
                 "audio/webm")].
Proof.
  vm_compute. reflexivity.
Qed.

(** C7, on a first recording.  The three chunks of sizes 4000, 4000 and
    2000 are kept in the buffer in order, but the processing run that the
    [stop] event starts builds its payload from the chunks of the render
    in which the recording was started, which are none: no request is
    issued and the status says that no audio was recorded. *)
Theorem first_recording_not_sent :
  let a := fst (run Sample.first_recording Sample.mounted) in
  let es := snd (run Sample.first_recording Sample.mounted) in
  map size (audioChunks (state a)) = [4000; 4000; 2000]
  /\ requests es = []
  /\ es = [RecorderStart 1000; RecorderStop]
  /\ statusMessage (state a) =
     "No audio recorded from the tab. Please ensure audio is playing and you record for a sufficient duration."
  /\ isLoading (state a) = false.
Proof.
  vm_compute. repeat split.
Qed.

End Recording.

(** * Further properties *)

(** ** Strings *)

Section Strings.

Lemma startsWith_prefix needle hay :
  Js.startsWith needle hay = true <-> exists post, hay = (needle ++ post)%string.
Proof.
  revert hay.
  induction needle as [|a needle IH]; intros hay; simpl.
  - split; [intros _; now exists hay | reflexivity].
  - destruct hay as [|b hay].
    + split; [discriminate | intros [post H]; discriminate].
    + rewrite andb_true_iff, Ascii.eqb_eq, IH. split.
      * intros [-> [post ->]]. now exists post.
      * intros [post H]. injection H as -> ->. split; [reflexivity|].
        now exists post.
Qed.

(** X1. [includes], as used on error messages (lines 39 and 162), is
    substring containment: it answers [true] exactly when the text is some
    prefix, then the needle, then some suffix. *)
Theorem includes_substring needle hay :
  Js.includes needle hay = true
  <-> exists pre post, hay = (pre ++ needle ++ post)%string.
Proof.
  induction hay as [|c hay IH].
  - simpl. rewrite orb_false_r, startsWith_prefix. split.
    + intros [post H]. now exists "", post.
    + intros [pre [post H]]. destruct pre; [|discriminate].
      now exists post.
  - cbn [Js.includes]. rewrite orb_true_iff, startsWith_prefix, IH. split.
    + intros [[post H]|[pre [post H]]].
      * now exists "", post.
      * exists (String c pre), post. simpl. now rewrite H.
    + intros [pre [post H]]. destruct pre as [|c' pre].
      * left. now exists post.
      * right. injection H as _ H. now exists pre, post.
Qed.

End Strings.

(** ** The chunk buffer in a session *)

Section Buffer.

(** X2. Dropping empty chunks loses no audio: after any run of chunk
    events the buffer is the earlier buffer followed by the non-empty chunks
    in the order of delivery, and a payload made of it holds the bytes of the
    earlier buffer followed by the bytes of every chunk delivered. *)
Theorem deliveries_lose_no_bytes chunks s type :
  audioChunks (deliver chunks s) = audioChunks s ++ kept chunks
  /\ no_empty_chunk (kept chunks)
  /\ blob_bytes (new_Blob (audioChunks (deliver chunks s)) type)
     = blob_bytes (new_Blob (audioChunks s) type)
       ++ concat (map blob_bytes chunks).
Proof.
  split; [apply audioChunks_deliver|]. split.
  - unfold no_empty_chunk, kept. apply Forall_forall.
    intros data H. apply filter_In in H. now apply Nat.ltb_lt.
  - rewrite audioChunks_deliver. unfold new_Blob at 1 2. simpl.
    rewrite map_app, concat_app. f_equal.
    apply (blob_bytes_kept chunks type).
Qed.

Lemma step_no_empty_chunk a e :
  no_empty_chunk (audioChunks (state a)) ->
  no_empty_chunk (audioChunks (state (fst (step a e)))).
Proof.
  intros H. unfold no_empty_chunk in *.
  destruct e as [o|o mr|data| | |o| |o| |o]; simpl.
  - unfold getDisplayMediaAudio.
    destruct o as [stream|name message]; simpl; [exact H|].
    destruct (_ && _); [exact H|].
    destruct (name =? "NotAllowedError")%string; [exact H|].
    destruct (name =? "NotFoundError")%string; exact H.
  - unfold startRecording, startRecording_begin, startRecording_resume.
    destruct (audioStreamRef a) as [str|].
    + destruct mr; simpl; constructor.
    + destruct o as [[str|]|name message]; simpl; try exact H.
      destruct mr; simpl; constructor.
  - unfold ondataavailable.
    destruct (0 <? size data)%nat eqn:E; simpl; [|exact H].
    apply Forall_app. split; [exact H|].
    constructor; [now apply Nat.ltb_lt | constructor].
  - unfold stopRecording.
    destruct (mediaRecorderRef a) as [rec|]; [|exact H].
    destruct (RecorderState_eqb (recorder_state rec) recording); exact H.
  - destruct (mediaRecorderRef a) as [rec|]; [|exact H].
    unfold onState, onstop, sendAudioForProcessing_begin.
    destruct (_ =? 0)%nat; exact H.
  - constructor.
  - unfold onState, handleRefineQuestion_begin.
    destruct (negb _); exact H.
  - unfold handleRefineQuestion_resume.
    destruct (gemini_try o) as [m|result]; [exact H|].
    destruct (first_candidate_text result); exact H.
  - unfold onState, getAiAnswer_begin.
    destruct (negb _); exact H.
  - unfold getAiAnswer_resume.
    destruct (openai_try o); exact H.
Qed.

(** X3. The chunk buffer never holds an empty chunk: whatever the events of
    a session and the outcomes of the platform and of the services, a buffer
    without empty chunks stays one.  A payload made of such a buffer has
    size zero only when the buffer is empty. *)
Theorem buffer_never_holds_empty_chunk events a :
  no_empty_chunk (audioChunks (state a)) ->
  let s' := state (fst (run events a)) in
  no_empty_chunk (audioChunks s')
  /\ (size (new_Blob (audioChunks s') "audio/webm") = 0 <-> audioChunks s' = []).
Proof.
  intros H.
  assert (Hrun : no_empty_chunk (audioChunks (state (fst (run events a))))).
  { revert a H.
    induction events as [|e events IH]; intros a H; simpl; [exact H|].
    pose proof (step_no_empty_chunk a e H) as Hstep.
    destruct (step a e) as [a1 es1]. simpl in Hstep.
    specialize (IH a1 Hstep).
    destruct (run events a1) as [a2 es2]. exact IH. }
  simpl. split; [exact Hrun|].
  rewrite size_new_Blob_zero. split.
  - intros Hz. unfold no_empty_chunk in Hrun.
    destruct (audioChunks (state (fst (run events a)))) as [|c cs];
      [reflexivity|].
    inversion Hz; subst. inversion Hrun; subst. lia.
  - intros ->. constructor.
Qed.

Lemma buffer_never_holds_empty_chunk_witness :
  no_empty_chunk (audioChunks (state Sample.mounted))
  /\ no_empty_chunk
       (audioChunks (state (fst (run Sample.first_recording Sample.mounted)))).
Proof.
  split; [constructor|].
  apply (buffer_never_holds_empty_chunk Sample.first_recording Sample.mounted).
  constructor.
Defined.

End Buffer.

(** ** The status line *)

Section Status.

(** Splits on the tests a handler makes, innermost first. *)
Ltac branches :=
  repeat match goal with
         | |- context [match ?x with _ => _ end] =>
             match x with
             | context [match _ with _ => _ end] => fail 1
             | _ => destruct x eqn:?
             end
         end.

Lemma step_status_not_empty a e :
  statusMessage (state a) <> "" ->
  statusMessage (state (fst (step a e))) <> "".
Proof.
  intros H.
  destruct e as [o|o mr|data| | |o| |o| |o]; simpl;
    unfold getDisplayMediaAudio, startRecording, startRecording_begin,
           startRecording_resume, startRecording_record, ondataavailable,
           stopRecording, onState, onstop, sendAudioForProcessing_begin,
           sendAudioForProcessing_resume, handleRefineQuestion_begin,
           handleRefineQuestion_resume, getAiAnswer_begin, getAiAnswer_resume;
    branches; simpl; solve [exact H | discriminate].
Qed.

(** X4. The status line is never empty: every handler that writes it writes
    a text that is not empty, so a status that is not empty (as the initial
    one) stays so through every session. *)
Theorem status_never_empty events a :
  statusMessage (state a) <> "" ->
  statusMessage (state (fst (run events a))) <> "".
Proof.
  revert a.
  induction events as [|e events IH]; intros a H; simpl; [exact H|].
  pose proof (step_status_not_empty a e H) as Hstep.
  destruct (step a e) as [a1 es1]. simpl in Hstep.
  specialize (IH a1 Hstep).
  destruct (run events a1) as [a2 es2]. exact IH.
Qed.

Lemma status_never_empty_witness :
  statusMessage (state initialApp) <> ""
  /\ statusMessage
       (state (fst (run (Mount (AcquireFailed "NotFoundError" "")
                          :: Sample.first_recording) initialApp))) <> "".
Proof.
  split; [discriminate|].
  apply (status_never_empty
           (Mount (AcquireFailed "NotFoundError" "") :: Sample.first_recording)
           initialApp).
  discriminate.
Defined.

End Status.

(** ** The controls and the controller *)

Section Controls.

(** X5. Start and Stop are never both clickable, and when no transcription
    or answer is pending exactly one of them is; while [isLoading] is raised
    none of the four buttons can be clicked, and Refine and Get AI Answer
    cannot be clicked while the spinner shows. *)
Theorem controls_exclude_each_other s :
  View.start_disabled s || View.stop_disabled s = true
  /\ (isLoading s = false ->
      View.start_disabled s = negb (View.stop_disabled s))
  /\ (isLoading s = true ->
      forall e, In e [ClickStop; ClickRefine; ClickAnswer] ->
                clickable s e = false)
  /\ (isLoading s = true -> forall o mr, clickable s (ClickStart o mr) = false)
  /\ (View.spinner s = true ->
      clickable s ClickRefine = false /\ clickable s ClickAnswer = false).
Proof.
  unfold clickable.
  unfold View.start_disabled, View.stop_disabled, View.spinner,
         View.refine_disabled, View.answer_disabled.
  split; [|split; [|split; [|split]]].
  - destruct (isRecording s), (isLoading s); reflexivity.
  - intros ->. destruct (isRecording s); reflexivity.
  - intros -> e [<-|[<-|[<-|[]]]];
      rewrite ?orb_true_r, ?orb_true_l, ?andb_false_r; reflexivity.
  - intros -> o mr. rewrite orb_true_r. reflexivity.
  - intros H. rewrite (orb_comm (isRefining s)), H, !andb_false_r.
    split; reflexivity.
Qed.

Lemma controls_exclude_each_other_witness :
  isLoading Sample.with_audio = true
  /\ clickable Sample.with_audio ClickStop = false.
Proof.
  split; [reflexivity|].
  destruct (controls_exclude_each_other Sample.with_audio)
    as (_ & _ & H & _).
  apply (H eq_refl). simpl. left. reflexivity.
Defined.

(** X6. Through the buttons the precondition branches of stages 2 and 3
    are never taken: a click on Refine Question that can happen sends the
    refinement request for the transcript on screen, and a click on Get AI
    Answer that can happen sends the question. *)
Theorem clicks_always_send a :
  (clickable (state a) ClickRefine = true ->
   snd (step a ClickRefine)
   = [Fetch (gemini_request (transcribedText (state a)))])
  /\ (clickable (state a) ClickAnswer = true ->
      snd (step a ClickAnswer)
      = [Fetch (openai_request (questionToSend (state a)))]).
Proof.
  unfold clickable, View.refine_rendered, View.answer_rendered. split.
  - intros H. apply andb_true_iff in H as [H _].
    simpl. unfold onState, handleRefineQuestion_begin. now rewrite H.
  - intros H. apply andb_true_iff in H as [H _].
    simpl. unfold onState, getAiAnswer_begin, questionToSend.
    destruct (refinedQuestion (state a)) as [[|c r]|];
      destruct (transcribedText (state a)); simpl in *;
      solve [reflexivity | discriminate].
Qed.

Lemma clicks_always_send_witness :
  clickable Sample.transcribed ClickRefine = true
  /\ clickable Sample.transcribed ClickAnswer = true
  /\ snd (step (mkApp Sample.transcribed None None) ClickAnswer)
     = [Fetch (openai_request "so um what is a monad")].
Proof.
  split; [reflexivity|]. split; [reflexivity|].
  destruct (clicks_always_send (mkApp Sample.transcribed None None))
    as [_ H].
  apply (H eq_refl).
Defined.

Lemma step_flag_agrees a e :
  isRecording (state a) = in_Recording a ->
  clickable (state a) e = true ->
  isRecording (state (fst (step a e))) = in_Recording (fst (step a e)).
Proof.
  intros Hagree Hclick.
  destruct e as [o|o mr|data| | |o| |o| |o]; simpl in *.
  - unfold getDisplayMediaAudio.
    destruct o as [stream|name message]; simpl; [exact Hagree|].
    destruct (_ && _); [exact Hagree|].
    destruct (name =? "NotAllowedError")%string; [exact Hagree|].
    destruct (name =? "NotFoundError")%string; exact Hagree.
  - unfold View.start_disabled in Hclick.
    apply negb_true_iff, orb_false_iff in Hclick as [Hrec _].
    rewrite Hrec in Hagree.
    unfold startRecording, startRecording_begin, startRecording_resume.
    destruct (audioStreamRef a) as [str|].
    + destruct mr; simpl; try reflexivity. exact Hagree.
    + destruct o as [[str|]|name message]; simpl;
        try (rewrite Hrec; exact Hagree).
      destruct mr; simpl; try reflexivity. exact Hagree.
  - unfold ondataavailable.
    destruct (0 <? size data)%nat; exact Hagree.
  - unfold View.stop_disabled in Hclick.
    apply negb_true_iff, orb_false_iff in Hclick as [Hrec _].
    apply negb_false_iff in Hrec. rewrite Hrec in Hagree.
    unfold in_Recording in Hagree. unfold stopRecording.
    destruct (mediaRecorderRef a) as [rec|]; [|discriminate].
    rewrite <- Hagree. reflexivity.
  - unfold in_Recording in *.
    destruct (mediaRecorderRef a) as [rec|] eqn:Href; simpl;
      [|now rewrite Href].
    unfold onState, onstop, sendAudioForProcessing_begin.
    destruct (_ =? 0)%nat; simpl; now rewrite Href.
  - destruct (stt_try o) as [m|transcription]; [|exact Hagree].
    destruct (Js.includes "Failed to fetch" m); exact Hagree.
  - unfold onState, handleRefineQuestion_begin.
    destruct (negb (Js.truthy_str (transcribedText (state a)))); exact Hagree.
  - unfold handleRefineQuestion_resume.
    destruct (gemini_try o) as [m|result]; [exact Hagree|].
    destruct (first_candidate_text result); exact Hagree.
  - unfold onState, getAiAnswer_begin.
    destruct (negb (Js.truthy_str (questionToSend (state a)))); exact Hagree.
  - unfold getAiAnswer_resume.
    destruct (openai_try o); exact Hagree.
Qed.

(** X7. In every session in which each click is on a button that can be
    clicked, the [isRecording] flag agrees with the recorder: it is raised
    exactly when [mediaRecorderRef] holds a recorder that was started and
    not stopped.  (The recorder is taken to change state through the
    component's [start] and [stop] calls only.) *)
Theorem recording_flag_agrees_with_recorder events a :
  isRecording (state a) = in_Recording a ->
  permitted events a = true ->
  isRecording (state (fst (run events a))) = in_Recording (fst (run events a)).
Proof.
  revert a.
  induction events as [|e events IH]; intros a Hagree Hperm; simpl;
    [exact Hagree|].
  simpl in Hperm. apply andb_true_iff in Hperm as [Hclick Hperm].
  pose proof (step_flag_agrees a e Hagree Hclick) as Hstep.
  destruct (step a e) as [a1 es1]. simpl in Hstep, Hperm.
  specialize (IH a1 Hstep Hperm).
  destruct (run events a1) as [a2 es2]. exact IH.
Qed.

Lemma recording_flag_agrees_with_recorder_witness :
  isRecording (state Sample.mounted) = in_Recording Sample.mounted
  /\ permitted Sample.first_recording Sample.mounted = true
  /\ isRecording (state (fst (run Sample.first_recording Sample.mounted)))
     = in_Recording (fst (run Sample.first_recording Sample.mounted)).
Proof.
  split; [reflexivity|]. split; [vm_compute; reflexivity|].
  apply (recording_flag_agrees_with_recorder
           Sample.first_recording Sample.mounted).
  - reflexivity.
  - vm_compute. reflexivity.
Defined.

(** X8. [stopRecording] is idempotent: a second call right after the first
    changes nothing and does not stop the recorder again. *)
Theorem stopRecording_twice a :
  stopRecording (fst (stopRecording a)) = (fst (stopRecording a), []).
Proof.
  unfold stopRecording.
  destruct (mediaRecorderRef a) as [rec|] eqn:Href;
    [destruct (RecorderState_eqb (recorder_state rec) recording) eqn:Hst|];
    simpl; rewrite ?Href, ?Hst; reflexivity.
Qed.

End Controls.

(** ** Starting a recording *)

Section Start.

(** X9. A start that cannot get a stream discards nothing: without a stream
    in [audioStreamRef], when the re-acquisition fails or resolves to
    nothing, [startRecording] asks the platform once, writes a status that
    begins with [Cannot start recording: ] and leaves every other state cell
    and both refs as they were, the earlier transcript, refined question and
    answer included. *)
Theorem startRecording_without_stream render o mr a :
  audioStreamRef a = None ->
  (forall stream, o <> Acquired (Some stream)) ->
  exists message,
    startRecording render o mr a
    = (withState (setStatusMessage message) a, [GetDisplayMedia])
    /\ Js.startsWith "Cannot start recording: " message = true.
Proof.
  intros Href Hno.
  unfold startRecording, startRecording_begin, startRecording_resume.
  rewrite Href.
  destruct a as [s recorder stream]. simpl in Href. subst stream.
  destruct o as [[stream|]|name message]; simpl.
  - now destruct (Hno stream).
  - eexists. split; [reflexivity|]. reflexivity.
  - eexists. split; [reflexivity|]. reflexivity.
Qed.

Lemma startRecording_without_stream_witness :
  audioStreamRef initialApp = None
  /\ exists message,
       startRecording initialState (AcquireFailed "NotAllowedError" "denied")
                      RecorderStarted initialApp
       = (withState (setStatusMessage message) initialApp, [GetDisplayMedia])
       /\ Js.startsWith "Cannot start recording: " message = true.
Proof.
  split; [reflexivity|].
  apply (startRecording_without_stream
           initialState (AcquireFailed "NotAllowedError" "denied")
           RecorderStarted initialApp).
  - reflexivity.
  - intros stream. discriminate.
Defined.

(** X10. A start that fails in the recorder has already discarded the
    earlier results: with a stream at hand, when [new MediaRecorder] or
    [start] throws, the buffer, the transcript, the refined question and the
    answer are empty afterwards, [isRecording] and [isLoading] are lowered,
    the status reports the error, nothing is asked of the platform, and
    [mediaRecorderRef] holds no recording recorder that was not there
    before. *)
Theorem startRecording_recorder_failure render o mr a :
  audioStreamRef a <> None ->
  mr <> RecorderStarted ->
  let a' := fst (startRecording render o mr a) in
  snd (startRecording render o mr a) = []
  /\ state a'
     = mkState false [] "" (Some "") ""
         "Error starting recording. Ensure a tab is selected for audio sharing."
         false (isRefining (state a))
  /\ (in_Recording a' = true -> in_Recording a = true).
Proof.
  intros Href Hmr.
  unfold startRecording, startRecording_begin.
  destruct (audioStreamRef a) as [stream|]; [|contradiction].
  destruct mr; [contradiction| |]; simpl; repeat split.
  - tauto.
  - discriminate.
Qed.

Lemma startRecording_recorder_failure_witness :
  audioStreamRef (mkApp Sample.answered None (Some Sample.stream)) <> None
  /\ ConstructorThrows <> RecorderStarted
  /\ snd (startRecording Sample.answered (Acquired None) ConstructorThrows
                         (mkApp Sample.answered None (Some Sample.stream)))
     = [].
Proof.
  split; [discriminate|]. split; [discriminate|].
  apply (startRecording_recorder_failure
           Sample.answered (Acquired None) ConstructorThrows
           (mkApp Sample.answered None (Some Sample.stream)));
    discriminate.
Defined.

(** X11. The stream is acquired lazily.  When the mount effect failed, the
    first Start Recording asks the platform for the stream, and with a
    stream granted and the recorder started the component is recording
    with that stream in [audioStreamRef]; when the mount effect obtained a
    stream, Start Recording starts the recorder without asking again. *)
Theorem stream_acquired_on_demand a name message stream o :
  audioStreamRef a = None ->
  (let r := run [Mount (AcquireFailed name message);
                 ClickStart (Acquired (Some stream)) RecorderStarted] a in
   snd r = [GetDisplayMedia; RecorderStart 1000]
   /\ audioStreamRef (fst r) = Some stream
   /\ in_Recording (fst r) = true
   /\ isRecording (state (fst r)) = true)
  /\ (let r := run [Mount (Acquired (Some stream));
                    ClickStart o RecorderStarted] a in
      snd r = [RecorderStart 1000]
      /\ audioStreamRef (fst r) = Some stream
      /\ in_Recording (fst r) = true
      /\ isRecording (state (fst r)) = true).
Proof.
  intros Href. split.
  - cbn [run step]. unfold getDisplayMediaAudio.
    destruct ((name =? "NotAllowedError")%string
              && Js.includes "permissions policy" message);
      [|destruct (name =? "NotAllowedError")%string;
        [|destruct (name =? "NotFoundError")%string]];
      unfold startRecording, startRecording_begin, startRecording_resume;
      simpl; rewrite Href; simpl; repeat split.
  - cbn [run step]. unfold getDisplayMediaAudio.
    unfold startRecording, startRecording_begin. simpl. repeat split.
Qed.

Lemma stream_acquired_on_demand_witness :
  audioStreamRef initialApp = None
  /\ snd (run [Mount (AcquireFailed "NotFoundError" "none");
               ClickStart (Acquired (Some Sample.stream)) RecorderStarted]
              initialApp)
     = [GetDisplayMedia; RecorderStart 1000].
Proof.
  split; [reflexivity|].
  apply (stream_acquired_on_demand
           initialApp "NotFoundError" "none" Sample.stream (Acquired None)).
  reflexivity.
Defined.

End Start.

(** ** Outcomes of the stages *)

Section Outcomes.




Lemma includes_app_r needle pre hay :
  Js.includes needle hay = true ->
  Js.includes needle (pre ++ hay)%string = true.
Proof.
  intros H. induction pre as [|c pre IH]; simpl; [exact H|].
  rewrite IH. apply orb_true_r.
Qed.

Lemma includes_not_empty needle hay :
  needle <> "" -> Js.includes needle hay = true -> Js.truthy_str hay = true.
Proof.
  intros Hn H. destruct hay; [|reflexivity].
  destruct needle; [contradiction | discriminate].
Qed.

(** X13. A failure that the backend itself reports is shown as a failure to
    reach the backend when its text holds the words [Failed to fetch]: for a
    response that is not ok and whose body carries such a message, as for a
    rejected request with such a message, the status after stage 1 is the
    one that says the backend could not be reached, and the message of the
    backend is not shown. *)
Theorem backend_error_reported_as_unreachable o s :
  (match o with
   | FetchRejected message => Js.includes "Failed to fetch" message = true
   | FetchResolved r =>
       ok r = false
       /\ exists sttResult message,
            json r = JsonParsed sttResult
            /\ stt_message sttResult = Some message
            /\ Js.includes "Failed to fetch" message = true
   end) ->
  statusMessage (sendAudioForProcessing_resume o s)
  = ("Error: Could not connect to backend. Ensure backend is running at "
     ++ BACKEND_URL ++ " and check CORS.")%string.
Proof.
  unfold sendAudioForProcessing_resume, stt_try.
  destruct o as [message|r].
  - intros ->. reflexivity.
  - intros [Hok [sttResult [message [Hjson [Hmsg Hin]]]]].
    rewrite Hok. simpl negb. cbv iota.
    unfold api_error. rewrite Hjson, Hmsg.
    assert (Hor : Js.or (Some message) (statusText r) = message).
    { simpl. rewrite (includes_not_empty "Failed to fetch" message);
        [reflexivity | discriminate | exact Hin]. }
    rewrite Hor.
    match goal with
    | |- context [Js.includes ?needle ?hay] =>
        assert (E : Js.includes needle hay = true)
          by (repeat apply includes_app_r; exact Hin);
        rewrite E
    end.
    reflexivity.
Qed.

Lemma backend_error_reported_as_unreachable_witness :
  statusMessage
    (sendAudioForProcessing_resume
       (FetchResolved
          (mkResponse 502 "Bad Gateway"
             (JsonParsed
                (mkSttBody None (Some "Failed to fetch from the STT provider")))))
       Sample.with_audio)
  = ("Error: Could not connect to backend. Ensure backend is running at "
     ++ BACKEND_URL ++ " and check CORS.")%string.
Proof.
  apply (backend_error_reported_as_unreachable
           (FetchResolved
              (mkResponse 502 "Bad Gateway"
                 (JsonParsed
                    (mkSttBody None
                       (Some "Failed to fetch from the STT provider")))))
           Sample.with_audio).
  split; [reflexivity|].
  exists (mkSttBody None (Some "Failed to fetch from the STT provider")).
  exists "Failed to fetch from the STT provider".
  repeat split.
Defined.

(** X14. No stage writes the result of another one.  Whatever the render,
    the outcome and the state, both parts of stage 1 leave the refined
    question, the answer and [isRecording] as they are; both parts of
    stage 2 leave the transcript, the answer, the buffer and [isRecording];
    both parts of stage 3 leave the transcript, the refined question, the
    buffer and [isRecording]. *)
Theorem stages_keep_other_results :
  (forall render o s,
      let s1 := fst (sendAudioForProcessing_begin render s) in
      let s2 := sendAudioForProcessing_resume o s in
      (refinedQuestion s1 = refinedQuestion s /\ aiAnswer s1 = aiAnswer s
       /\ isRecording s1 = isRecording s
       /\ transcribedText s1 = transcribedText s
       /\ audioChunks s1 = audioChunks s)
      /\ (refinedQuestion s2 = refinedQuestion s /\ aiAnswer s2 = aiAnswer s
          /\ isRecording s2 = isRecording s))
  /\ (forall render o s,
         let s1 := fst (handleRefineQuestion_begin render s) in
         let s2 := handleRefineQuestion_resume o s in
         (transcribedText s1 = transcribedText s /\ aiAnswer s1 = aiAnswer s
          /\ audioChunks s1 = audioChunks s /\ isRecording s1 = isRecording s)
         /\ (transcribedText s2 = transcribedText s /\ aiAnswer s2 = aiAnswer s
             /\ audioChunks s2 = audioChunks s
             /\ isRecording s2 = isRecording s))
  /\ (forall render o s,
         let s1 := fst (getAiAnswer_begin render s) in
         let s2 := getAiAnswer_resume o s in
         (transcribedText s1 = transcribedText s
          /\ refinedQuestion s1 = refinedQuestion s
          /\ audioChunks s1 = audioChunks s /\ isRecording s1 = isRecording s)
         /\ (transcribedText s2 = transcribedText s
             /\ refinedQuestion s2 = refinedQuestion s
             /\ audioChunks s2 = audioChunks s
             /\ isRecording s2 = isRecording s)).
Proof.
  split; [|split]; intros render o s; simpl.
  - unfold sendAudioForProcessing_begin, sendAudioForProcessing_resume.
    destruct (size (new_Blob (audioChunks render) "audio/webm") =? 0)%nat;
      destruct (stt_try o) as [m|transcription];
      try destruct (Js.includes "Failed to fetch" m);
      repeat split.
  - unfold handleRefineQuestion_begin, handleRefineQuestion_resume.
    destruct (negb (Js.truthy_str (transcribedText render)));
      destruct (gemini_try o) as [m|result];
      try destruct (first_candidate_text result);
      repeat split.
  - unfold getAiAnswer_begin, getAiAnswer_resume.
    destruct (negb (Js.truthy_str (questionToSend render)));
      destruct (openai_try o);
      repeat split.
Qed.

(** X15. The answer follows the latest refinement.  After a click on Refine
    Question on a transcript, a click on Get AI Answer sends the text of the
    first candidate when the refinement returned one that is not empty, and
    the transcript in every other case -- the refinement failed, came
    without a usable candidate or without text -- even when an earlier
    refinement had succeeded: its result was cleared when the new request
    was sent. *)
Theorem answer_follows_latest_refinement a o :
  transcribedText (state a) <> "" ->
  let refined :=
    match gemini_try o with
    | inr result =>
        match first_candidate_text result with
        | Some text => text
        | None => Some ""
        end
    | inl _ => Some ""
    end in
  requests (snd (run [ClickRefine; GeminiSettled o; ClickAnswer] a))
  = [gemini_request (transcribedText (state a));
     openai_request (if Js.truthy refined
                     then Js.or refined ""
                     else transcribedText (state a))].
Proof.
  intros Ht. cbn [run step].
  unfold onState, handleRefineQuestion_begin, handleRefineQuestion_resume,
         getAiAnswer_begin, questionToSend.
  destruct (transcribedText (state a)) as [|c tr] eqn:Etr; [contradiction|].
  simpl. rewrite ?Etr.
  destruct (gemini_try o) as [m|result]; simpl.
  - rewrite ?Etr. reflexivity.
  - destruct (first_candidate_text result) as [[[|c' text]|]|]; simpl;
      rewrite ?Etr; reflexivity.
Qed.

Lemma answer_follows_latest_refinement_witness :
  transcribedText Sample.answered <> ""
  /\ requests
       (snd (run [ClickRefine;
                  GeminiSettled (FetchRejected "Failed to fetch");
                  ClickAnswer]
                 (mkApp Sample.answered None None)))
     = [gemini_request "so um what is a monad";
        openai_request "so um what is a monad"].
Proof.
  split; [discriminate|].
  apply (answer_follows_latest_refinement
           (mkApp Sample.answered None None)
           (FetchRejected "Failed to fetch")).
  discriminate.
Defined.

End Outcomes.

(** ** Recordings in a row *)

Section Recordings.

Lemma requests_app es1 es2 :
  requests (es1 ++ es2) = requests es1 ++ requests es2.
Proof.
  induction es1 as [|[r| | |] es1 IH]; simpl; rewrite ?IH; reflexivity.
Qed.

Lemma permitted_app events1 events2 a :
  permitted (events1 ++ events2) a
  = permitted events1 a && permitted events2 (fst (run events1 a)).
Proof.
  revert a.
  induction events1 as [|e events1 IH]; intros a; simpl; [reflexivity|].
  rewrite IH, andb_assoc.
  destruct (step a e) as [a1 es1]; simpl.
  now destruct (run events1 a1).
Qed.

Lemma permitted_deliveries chunks a :
  permitted (map DataAvailable chunks) a = true.
Proof.
  revert a. induction chunks as [|data chunks IH]; intros a; simpl;
    [reflexivity | apply IH].
Qed.

Lemma kept_payload_not_empty chunks type :
  kept chunks <> [] -> size (new_Blob (kept chunks) type) <> 0.
Proof.
  intros Hne Hz. apply size_new_Blob_zero in Hz.
  destruct (kept chunks) as [|data rest] eqn:E; [contradiction|].
  assert (Hin : In data (kept chunks)) by (rewrite E; now left).
  apply filter_In in Hin as [_ Hpos]. apply Nat.ltb_lt in Hpos.
  inversion Hz; subst. lia.
Qed.

(** The component after one recording: the stream is kept, the recording
    flag is lowered, [isLoading] stays raised exactly when a request went
    out, and the buttons allowed every click of the recording. *)
Lemma recording_summary chunks a :
  audioStreamRef a <> None ->
  let a' := fst (run (recording_of chunks) a) in
  let payload := new_Blob (audioChunks (state a)) "audio/webm" in
  audioStreamRef a' = audioStreamRef a
  /\ isRecording (state a') = false
  /\ isLoading (state a') = negb (size payload =? 0)%nat.
Proof.
  intros Hstream a' payload. subst a'. unfold recording_of.
  cbn [run]. unfold step.
  unfold startRecording, startRecording_begin.
  destruct (audioStreamRef a) as [str|] eqn:Hs; [|contradiction].
  cbn [startRecording_record].
  rewrite run_app, run_deliveries.
  cbn [run]. unfold step, stopRecording. cbn -[deliver].
  unfold onState, onstop, sendAudioForProcessing_begin, withState,
         setMediaRecorderRef.
  cbn -[deliver].
  destruct (_ =? 0)%nat; cbn; repeat split; exact Hs.
Qed.

(** The buttons allow every click of a recording that starts while Start
    Recording can be clicked. *)
Lemma recording_permitted chunks a :
  audioStreamRef a <> None ->
  View.start_disabled (state a) = false ->
  permitted (recording_of chunks) a = true.
Proof.
  intros Hstream Hstart. unfold recording_of.
  cbn [permitted]. rewrite permitted_app, permitted_deliveries, run_deliveries.
  unfold clickable at 1. rewrite Hstart.
  unfold step, startRecording, startRecording_begin.
  destruct (audioStreamRef a) as [str|] eqn:Hs; [|contradiction].
  cbn -[deliver]. unfold withState. cbn -[deliver].
  rewrite deliver_spec. reflexivity.
Qed.

(** X16. The payload of the processing run that ends a recording is made
    of the chunks of the render on screen when the recording was started,
    not of the chunks delivered during it.  For every recording on a
    component that holds a stream, whatever the chunks delivered, the run
    sends the buffer as it was before Start Recording (or nothing when that
    was empty), and the chunks delivered stay in the buffer. *)
Theorem recording_sends_earlier_buffer chunks a :
  audioStreamRef a <> None ->
  let r := run (recording_of chunks) a in
  let earlier := new_Blob (audioChunks (state a)) "audio/webm" in
  audioChunks (state (fst r)) = kept chunks
  /\ requests (snd r)
     = (if (size earlier =? 0)%nat then [] else [stt_request earlier])
  /\ (audioChunks (state a) = [] -> requests (snd r) = []).
Proof.
  intros Hstream r earlier. subst r.
  destruct (recording_payload chunks a Hstream) as [Hbuf Hreq].
  fold earlier in Hreq. repeat split; [exact Hbuf | exact Hreq |].
  intros Hempty. rewrite Hreq. subst earlier. rewrite Hempty. reflexivity.
Qed.

Lemma recording_sends_earlier_buffer_witness :
  audioStreamRef Sample.mounted <> None
  /\ requests
       (snd (run (recording_of [Sample.chunk 5; Sample.chunk 3])
                 Sample.mounted))
     = [].
Proof.
  split; [discriminate|].
  apply (recording_sends_earlier_buffer
           [Sample.chunk 5; Sample.chunk 3] Sample.mounted).
  - discriminate.
  - reflexivity.
Defined.

(** X17. Of two recordings in a row on a component with a stream and an
    empty buffer, the first one is sent when the second one stops and the
    second one is never sent: the buttons allow the whole session, its only
    request carries the chunks of the first recording, and once that request
    has settled, whatever its outcome, the buffer is empty, the chunks of
    the second recording with it. *)
Theorem second_recording_is_lost a first second o :
  audioStreamRef a <> None ->
  audioChunks (state a) = [] ->
  View.start_disabled (state a) = false ->
  kept first <> [] ->
  let session := recording_of first ++ recording_of second ++ [SttSettled o] in
  permitted session a = true
  /\ requests (snd (run session a))
     = [stt_request (new_Blob (kept first) "audio/webm")]
  /\ audioChunks (state (fst (run session a))) = [].
Proof.
  intros Hstream Hempty Hstart Hfirst session. subst session.
  destruct (recording_summary first a Hstream) as (Hs1 & Hrec1 & Hload1).
  pose proof (recording_permitted first a Hstream Hstart) as Hp1.
  destruct (recording_payload first a Hstream) as [Hbuf1 Hreq1].
  rewrite Hempty in Hload1, Hreq1.
  rewrite !permitted_app, !run_app, Hp1.
  destruct (run (recording_of first) a) as [a1 es1] eqn:E1.
  cbn [fst snd] in *. simpl in Hload1, Hreq1.
  assert (Hstream1 : audioStreamRef a1 <> None) by now rewrite Hs1.
  assert (Hstart1 : View.start_disabled (state a1) = false).
  { unfold View.start_disabled. now rewrite Hrec1, Hload1. }
  pose proof (recording_permitted second a1 Hstream1 Hstart1) as Hp2.
  destruct (recording_payload second a1 Hstream1) as [Hbuf2 Hreq2].
  rewrite Hbuf1 in Hreq2. rewrite Hp2.
  destruct (run (recording_of second) a1) as [a2 es2] eqn:E2.
  cbn [fst snd] in Hbuf2, Hreq2.
  pose proof (kept_payload_not_empty first "audio/webm" Hfirst) as Hsize.
  apply Nat.eqb_neq in Hsize. rewrite Hsize in Hreq2.
  rewrite run_app, E2.
  cbn [run step permitted clickable fst snd andb].
  rewrite !requests_app, Hreq1, Hreq2. repeat split.
Qed.

Lemma second_recording_is_lost_witness :
  audioStreamRef Sample.mounted <> None
  /\ kept [Sample.chunk 2] <> []
  /\ requests
       (snd (run (recording_of [Sample.chunk 2]
                  ++ recording_of [Sample.chunk 3]
                  ++ [SttSettled Sample.boom]) Sample.mounted))
     = [stt_request (new_Blob (kept [Sample.chunk 2]) "audio/webm")].
Proof.
  split; [discriminate|]. split; [discriminate|].
  apply (second_recording_is_lost
           Sample.mounted [Sample.chunk 2] [Sample.chunk 3] Sample.boom);
    solve [discriminate | reflexivity].
Defined.

(** X18. A refinement that is still pending when a new recording is started
    writes into the new recording.  With a stream at hand and the Refine and
    Start buttons clickable, the buttons allow Refine Question, then Start
    Recording, then the arrival of the refinement; after it the component is
    recording with an empty transcript, and yet holds the refined question
    of the earlier transcript and shows the status of the refinement. *)
Theorem pending_refinement_lands_in_new_recording a o o' result text :
  audioStreamRef a <> None ->
  clickable (state a) ClickRefine = true ->
  isRecording (state a) = false ->
  gemini_try o' = inr result ->
  first_candidate_text result = Some text ->
  let session := [ClickRefine; ClickStart o RecorderStarted; GeminiSettled o'] in
  let s' := state (fst (run session a)) in
  permitted session a = true
  /\ requests (snd (run session a))
     = [gemini_request (transcribedText (state a))]
  /\ isRecording s' = true
  /\ transcribedText s' = ""
  /\ refinedQuestion s' = text
  /\ statusMessage s'
     = "Question refined by Gemini! You can now get an AI answer.".
Proof.
  intros Hstream Hclick Hrec Htry Htext session s'. subst s' session.
  unfold clickable, View.refine_rendered, View.refine_disabled in Hclick.
  apply andb_true_iff in Hclick as [Ht Hbusy].
  apply negb_true_iff, orb_false_iff in Hbusy as [Hrefining Hloading].
  cbn [run permitted step].
  unfold clickable, View.refine_rendered, View.refine_disabled,
         View.start_disabled.
  unfold onState, handleRefineQuestion_begin, handleRefineQuestion_resume.
  rewrite Ht, Hrefining, Hloading, Htry, Htext. cbn.
  rewrite Hrec, Hloading.
  unfold startRecording, startRecording_begin.
  destruct (audioStreamRef a) as [str|] eqn:Hs; [|contradiction].
  cbn. rewrite !Hs. cbn. repeat split.
Qed.

Lemma pending_refinement_lands_in_new_recording_witness :
  let a := mkApp Sample.transcribed None (Some Sample.stream) in
  let o' := FetchResolved
              (mkResponse 200 "OK"
                 (JsonParsed
                    (mkGeminiBody
                       (Some [Some (mkCandidate
                                (Some (mkContent
                                         (Some [Some (mkPart (Some "What is a monad?"))]))))])
                       None))) in
  transcribedText
    (state (fst (run [ClickRefine; ClickStart (Acquired None) RecorderStarted;
                      GeminiSettled o'] a))) = ""
  /\ refinedQuestion
       (state (fst (run [ClickRefine; ClickStart (Acquired None) RecorderStarted;
                         GeminiSettled o'] a)))
     = Some "What is a monad?".
Proof.
  intros a o'.
  destruct (pending_refinement_lands_in_new_recording
              a (Acquired None) o'
              (mkGeminiBody
                 (Some [Some (mkCandidate
                          (Some (mkContent
                                   (Some [Some (mkPart (Some "What is a monad?"))]))))])
                 None)
              (Some "What is a monad?"))
    as (_ & _ & _ & Ht & Hr & _);
    try reflexivity; try discriminate.
  split; [exact Ht | exact Hr].
Defined.

End Recordings.

(** ** Messages of the services *)

Section Messages.

Lemma startsWith_suffix needle hay post :
  Js.startsWith needle hay = true ->
  Js.startsWith needle (hay ++ post)%string = true.
Proof.
  revert hay.
  induction needle as [|c needle IH]; intros hay; [reflexivity|].
  destruct hay as [|d hay]; simpl; [discriminate|].
  rewrite !andb_true_iff. intros [Hc Hrest]. split; [exact Hc|].
  now apply IH.
Qed.

Lemma includes_suffix needle hay post :
  Js.includes needle hay = true ->
  Js.includes needle (hay ++ post)%string = true.
Proof.
  induction hay as [|c hay IH].
  - cbn [Js.includes]. rewrite orb_false_r. intros H.
    destruct needle; [|discriminate]. now destruct post.
  - cbn [append Js.includes].
    change (String c (hay ++ post)%string) with (String c hay ++ post)%string.
    rewrite !orb_true_iff. intros [H|H].
    + left. now apply startsWith_suffix.
    + right. now apply IH.
Qed.

Lemma startsWith_refl s : Js.startsWith s s = true.
Proof.
  induction s as [|c s IH]; simpl; [reflexivity|].
  now rewrite Ascii.eqb_refl, IH.
Qed.

Lemma includes_refl s : Js.includes s s = true.
Proof.
  destruct s as [|c s]; [reflexivity|].
  cbn [Js.includes]. now rewrite startsWith_refl.
Qed.

(** The error of a response that is not ok holds the message of its body. *)
Lemma api_error_includes_message {B} api (message : B -> Js.value) r b m :
  json r = JsonParsed b -> message b = Some m -> m <> "" ->
  Js.includes m (api_error api message r) = true.
Proof.
  intros Hjson Hm Hne. unfold api_error. rewrite Hjson, Hm.
  assert (Hor : Js.or (Some m) (statusText r) = m)
    by (destruct m; [contradiction | reflexivity]).
  rewrite Hor.
  repeat apply includes_app_r. apply includes_refl.
Qed.

(** X19. The message of a service is shown.  When a stage gets a response
    that is not ok and whose body carries a message that is not empty, the
    status after the run contains that message -- for stage 1 unless the
    error text holds the words [Failed to fetch] -- and the field the stage
    would have written holds what it held when the response arrived. *)
Theorem service_message_is_shown m :
  m <> "" ->
  (forall r b s,
      ok r = false -> json r = JsonParsed b -> stt_message b = Some m ->
      Js.includes "Failed to fetch" (api_error "STT" stt_message r) = false ->
      let s' := sendAudioForProcessing_resume (FetchResolved r) s in
      Js.includes m (statusMessage s') = true
      /\ transcribedText s' = transcribedText s)
  /\ (forall r b s,
         ok r = false -> json r = JsonParsed b -> gemini_message b = Some m ->
         let s' := handleRefineQuestion_resume (FetchResolved r) s in
         Js.includes m (statusMessage s') = true
         /\ refinedQuestion s' = refinedQuestion s)
  /\ (forall r b s,
         ok r = false -> json r = JsonParsed b -> openai_message b = Some m ->
         let s' := getAiAnswer_resume (FetchResolved r) s in
         Js.includes m (statusMessage s') = true
         /\ aiAnswer s' = aiAnswer s).
Proof.
  intros Hne. split; [|split]; intros r b s Hok Hjson Hm.
  - intros Hnot.
    unfold sendAudioForProcessing_resume, stt_try. rewrite Hok. simpl negb.
    cbv iota. rewrite Hnot. cbn [statusMessage setAudioChunks setIsLoading
                                 setStatusMessage transcribedText].
    split; [|reflexivity].
    apply includes_app_r, includes_suffix.
    now apply api_error_includes_message with (b := b).
  - unfold handleRefineQuestion_resume, gemini_try. rewrite Hok. simpl negb.
    cbv iota. cbn [statusMessage setIsRefining setStatusMessage
                   refinedQuestion].
    split; [|reflexivity].
    apply includes_app_r, includes_suffix.
    now apply api_error_includes_message with (b := b).
  - unfold getAiAnswer_resume, openai_try. rewrite Hok. simpl negb.
    cbv iota. cbn [statusMessage setIsLoading setStatusMessage aiAnswer].
    split; [|reflexivity].
    apply includes_app_r, includes_suffix.
    now apply api_error_includes_message with (b := b).
Qed.

Lemma service_message_is_shown_witness :
  "quota exceeded" <> ""
  /\ Js.includes "quota exceeded"
       (statusMessage
          (getAiAnswer_resume
             (FetchResolved
                (mkResponse 429 "Too Many Requests"
                   (JsonParsed (mkOpenAiBody None (Some "quota exceeded")))))
             Sample.transcribed)) = true.
Proof.
  split; [discriminate|].
  destruct (service_message_is_shown "quota exceeded") as (_ & _ & H);
    [discriminate|].
  apply (H (mkResponse 429 "Too Many Requests"
              (JsonParsed (mkOpenAiBody None (Some "quota exceeded"))))
           (mkOpenAiBody None (Some "quota exceeded")) Sample.transcribed);
    reflexivity.
Defined.

End Messages.
